(** * scrapy-time-machine: the snapshot storages

    A shallow embedding of [scrapy_time_machine/storages.py]: the two storage
    classes [DbmTimeMachineStorage] and [S3TimeMachineStorage], the dbm store
    they drive, and the record codec that [store_response] and
    [retrieve_response] apply to a response.

    Python code mutates the storage object and the outside world (dbm files,
    temporary files, the S3 bucket) and may raise at any point while keeping
    the mutations done so far.  The embedding is therefore a state monad over
    a [World] whose result is either a value or a raised exception; every
    operation on the outside world also appends an event to a trace, so that
    the order and the number of store accesses can be stated.  Logging and
    the [_spider] attribute have no effect on the storage and are left out;
    failures of the local file system are not modelled, failures of S3
    transfers are. *)

From Stdlib Require Import ZArith Ascii String.
From stdpp Require Import base option strings gmap list countable.

Open Scope string_scope.
Open Scope list_scope.

(** ** Python values *)

(** A Python [bytes] object. *)
Abbreviation bytes := (list Byte.byte).

(** The exceptions the storage code can raise, by Python class. *)
Inductive exn : Type :=
| KeyError (key : string)          (* db[k] on a missing key *)
| ValueError (msg : string)        (* get_netloc_and_path; flush of a closed file *)
| TypeError (msg : string)         (* an operation applied to None *)
| AttributeError (name : string)   (* an attribute that was never assigned *)
| CloseSpider (reason : string)    (* scrapy.exceptions.CloseSpider *)
| DbmError (msg : string)          (* dbm.error *)
| UnpicklingError                  (* pickle.loads on a blob it cannot read *)
| BadGzipFile                      (* gzip.decompress on corrupt data *)
| ClientError (op : string).       (* boto3 transfer failure *)

(** How a call ends: it returns a value or raises. *)
Inductive result (A : Type) : Type :=
| Ok (a : A)
| Raise (e : exn).
Arguments Ok {A} _.
Arguments Raise {A} _.

(** The dictionary that [store_response] pickles: four fixed keys. *)
Record Pickled (D : Type) : Type := MkPickled {
  p_status : Z;
  p_url : string;
  p_headers : D;
  p_body : bytes
}.
Arguments MkPickled {D} _ _ _ _.
Arguments p_status {D} _.
Arguments p_url {D} _.
Arguments p_headers {D} _.
Arguments p_body {D} _.

(** ** The libraries the module imports

    [gzip], [pickle], [urllib.parse], [time], [tempfile], the Scrapy request
    fingerprint, [Headers] and [responsetypes], and the path helpers used by
    [set_uri] are not part of the repository.  They are taken as an interface;
    the laws the claims rely on are stated separately (section [Laws]). *)
Class Externals : Type := {
  Request : Type;
  request_fingerprint : Request → string;
  Headers : Type;                       (* scrapy.http.Headers *)
  HeaderDict : Type;                    (* a plain dict of header lists *)
  dict_of_headers : Headers → HeaderDict;        (* dict(response.headers) *)
  Headers_of_dict : HeaderDict → Headers;        (* Headers(data["headers"]) *)
  ResponseClass : Type;
  responsetypes_from_args : Headers → string → ResponseClass;
  gzip_compress : bytes → bytes;
  gzip_decompress : bytes → option bytes;        (* None: raises *)
  pickle_dumps : Pickled HeaderDict → bytes;     (* protocol 2 *)
  pickle_loads : bytes → option (Pickled HeaderDict);
  Timestamp : Type;                     (* the float returned by time() *)
  str_of_time : Timestamp → bytes;      (* str(time()), as dbm stores it *)
  urlparse : string → string * string * string;  (* scheme, netloc, path *)
  UriParams : Type;
  percent_format : string → UriParams → string;  (* uri % uri_params *)
  file_uri_to_path : string → string;
  dirname : string → string;
  basename : string → string;
  data_path : string → string;
  join : string → string → string
}.

Section Storages.
Context `{Ext : Externals}.

(** ** Responses *)

(** What the code reads from and builds into a Scrapy response. *)
Record Response : Type := MkResponse {
  r_class : ResponseClass;
  r_url : string;
  r_headers : Headers;
  r_status : Z;
  r_body : bytes
}.

(** The cached record carried by a response: status, url, headers, body. *)
Definition record_of (r : Response) : Z * string * Headers * bytes :=
  (r_status r, r_url r, r_headers r, r_body r).

(** ** The world *)

(** An object returned by [dbm.open]: the file it is bound to, whether
    [close] was called on it, and its key-value contents. *)
Record Db : Type := MkDb {
  db_path : string;
  db_closed : bool;
  db_map : gmap string bytes
}.

(** The object returned by [NamedTemporaryFile(..., delete=False)]. *)
Record TempFile : Type := MkTempFile {
  tf_name : string;
  tf_closed : bool
}.

Inductive StorageClass : Type :=
| DbmTimeMachineStorage
| S3TimeMachineStorage.

(** Every access to the outside world, in program order. *)
Inductive Event : Type :=
| EvMakeDirs (path : string)
| EvDbmOpen (path flag : string)
| EvDbContains (key : string)
| EvDbGet (key : string)
| EvDbPut (key : string) (value : bytes)
| EvDbClose (path : string)
| EvTime (t : Timestamp)
| EvTempCreate (name : string)
| EvTempFlush (name : string)
| EvTempClose (name : string)
| EvDownload (bucket key into : string)
| EvUpload (file bucket key : string).

(** The attributes of the storage object ([self]) followed by the
    environment: dbm files on disk, the S3 bucket contents, and the oracles
    that decide what the clock reads, whether a transfer succeeds and which
    name a temporary file gets. *)
Record World : Type := MkWorld {
  cls : StorageClass;
  db : option Db;
  snapshot_uri : option string;
  s3_uri : option string;
  retrieve_mode : bool;
  snapshot_mode : bool;
  path_to_local_file : option TempFile;
  disk : gmap string (gmap string bytes);
  bucket_store : gmap (string * string) (gmap string bytes);
  clock : nat → Timestamp;
  clock_reads : nat;
  s3_ok : nat → bool;
  s3_calls : nat;
  tmp_name : nat → string;
  tmp_made : nat;
  trace : list Event
}.

Definition set_db (d : option Db) (w : World) : World :=
  MkWorld (cls w) d (snapshot_uri w) (s3_uri w) (retrieve_mode w)
    (snapshot_mode w) (path_to_local_file w) (disk w) (bucket_store w)
    (clock w) (clock_reads w) (s3_ok w) (s3_calls w) (tmp_name w)
    (tmp_made w) (trace w).

Definition set_snapshot_uri (u : option string) (w : World) : World :=
  MkWorld (cls w) (db w) u (s3_uri w) (retrieve_mode w)
    (snapshot_mode w) (path_to_local_file w) (disk w) (bucket_store w)
    (clock w) (clock_reads w) (s3_ok w) (s3_calls w) (tmp_name w)
    (tmp_made w) (trace w).

Definition set_path_to_local_file (f : option TempFile) (w : World) : World :=
  MkWorld (cls w) (db w) (snapshot_uri w) (s3_uri w) (retrieve_mode w)
    (snapshot_mode w) f (disk w) (bucket_store w)
    (clock w) (clock_reads w) (s3_ok w) (s3_calls w) (tmp_name w)
    (tmp_made w) (trace w).

Definition set_disk (d : gmap string (gmap string bytes)) (w : World) : World :=
  MkWorld (cls w) (db w) (snapshot_uri w) (s3_uri w) (retrieve_mode w)
    (snapshot_mode w) (path_to_local_file w) d (bucket_store w)
    (clock w) (clock_reads w) (s3_ok w) (s3_calls w) (tmp_name w)
    (tmp_made w) (trace w).

Definition set_bucket_store (b : gmap (string * string) (gmap string bytes))
    (w : World) : World :=
  MkWorld (cls w) (db w) (snapshot_uri w) (s3_uri w) (retrieve_mode w)
    (snapshot_mode w) (path_to_local_file w) (disk w) b
    (clock w) (clock_reads w) (s3_ok w) (s3_calls w) (tmp_name w)
    (tmp_made w) (trace w).

Definition tick_clock (w : World) : World :=
  MkWorld (cls w) (db w) (snapshot_uri w) (s3_uri w) (retrieve_mode w)
    (snapshot_mode w) (path_to_local_file w) (disk w) (bucket_store w)
    (clock w) (S (clock_reads w)) (s3_ok w) (s3_calls w) (tmp_name w)
    (tmp_made w) (trace w).

Definition tick_s3 (w : World) : World :=
  MkWorld (cls w) (db w) (snapshot_uri w) (s3_uri w) (retrieve_mode w)
    (snapshot_mode w) (path_to_local_file w) (disk w) (bucket_store w)
    (clock w) (clock_reads w) (s3_ok w) (S (s3_calls w)) (tmp_name w)
    (tmp_made w) (trace w).

Definition tick_tmp (w : World) : World :=
  MkWorld (cls w) (db w) (snapshot_uri w) (s3_uri w) (retrieve_mode w)
    (snapshot_mode w) (path_to_local_file w) (disk w) (bucket_store w)
    (clock w) (clock_reads w) (s3_ok w) (s3_calls w) (tmp_name w)
    (S (tmp_made w)) (trace w).

Definition log (e : Event) (w : World) : World :=
  MkWorld (cls w) (db w) (snapshot_uri w) (s3_uri w) (retrieve_mode w)
    (snapshot_mode w) (path_to_local_file w) (disk w) (bucket_store w)
    (clock w) (clock_reads w) (s3_ok w) (s3_calls w) (tmp_name w)
    (tmp_made w) (trace w ++ [e]).

(** ** The monad of storage methods *)

(** A method runs in a world and leaves a world behind, also when it
    raises. *)
Definition M (A : Type) : Type := World → result A * World.

Definition ret {A} (a : A) : M A := λ w, (Ok a, w).

Definition raise {A} (e : exn) : M A := λ w, (Raise e, w).

Definition bind {A B} (m : M A) (k : A → M B) : M B :=
  λ w, match m w with
       | (Ok a, w') => k a w'
       | (Raise e, w') => (Raise e, w')
       end.

(** A call that does not touch the world. *)
Definition lift {A} (r : result A) : M A := λ w, (r, w).

Definition gets {A} (f : World → A) : M A := λ w, (Ok (f w), w).

Definition modify (f : World → World) : M unit := λ w, (Ok tt, f w).

Definition emit (e : Event) : M unit := modify (log e).

Notation "x <- m ;; k" := (bind m (λ x, k))
  (at level 100, m at next level, right associativity).
Notation "m ;;; k" := (bind m (λ _, k))
  (at level 100, right associativity).

(** ** The dbm object held in [self.db] *)

Definition closed_msg : string := "DBM object has already been closed".

(** [dbm.open(path, flag)]: flag "c" opens the file, creating it when it is
    missing; flag "n" always starts from a new, empty database. *)
Definition dbm_open (path flag : string) : M Db :=
  emit (EvDbmOpen path flag) ;;;
  files <- gets disk ;;
  let content :=
    if String.eqb flag "n" then ∅ else default ∅ (files !! path) in
  modify (set_disk (<[path := content]> files)) ;;;
  ret (MkDb path false content).

(** [k in self.db]. *)
Definition db_contains (k : string) : M bool :=
  d <- gets db ;;
  match d with
  | None => raise (TypeError "argument of type 'NoneType' is not iterable")
  | Some h =>
      if db_closed h then raise (DbmError closed_msg)
      else emit (EvDbContains k) ;;;
           ret (bool_decide (is_Some (db_map h !! k)))
  end.

(** [self.db[k]]. *)
Definition db_getitem (k : string) : M bytes :=
  d <- gets db ;;
  match d with
  | None => raise (TypeError "'NoneType' object is not subscriptable")
  | Some h =>
      if db_closed h then raise (DbmError closed_msg)
      else emit (EvDbGet k) ;;;
           match db_map h !! k with
           | Some v => ret v
           | None => raise (KeyError k)
           end
  end.

(** [self.db[k] = v]. *)
Definition db_setitem (k : string) (v : bytes) : M unit :=
  d <- gets db ;;
  match d with
  | None =>
      raise (TypeError "'NoneType' object does not support item assignment")
  | Some h =>
      if db_closed h then raise (DbmError closed_msg)
      else emit (EvDbPut k v) ;;;
           modify (set_db (Some (MkDb (db_path h) false (<[k := v]> (db_map h)))))
  end.

(** The truth value of [self.db] in [if self.db:].  [None] is false; a dbm
    object has no truth method of its own other than its length, so an open
    one is true exactly when it holds an entry, and testing a closed one
    raises [dbm.error]. *)
Definition db_truth : M bool :=
  d <- gets db ;;
  match d with
  | None => ret false
  | Some h =>
      if db_closed h then raise (DbmError closed_msg)
      else ret (negb (bool_decide (db_map h = ∅)))
  end.

(** [self.db.close()], reached only when [self.db] is a dbm object.
    Closing writes the contents back to the file; closing again is a
    no-op. *)
Definition db_close : M unit :=
  d <- gets db ;;
  match d with
  | None => raise (AttributeError "close")
  | Some h =>
      if db_closed h then ret tt
      else emit (EvDbClose (db_path h)) ;;;
           files <- gets disk ;;
           modify (set_disk (<[db_path h := db_map h]> files)) ;;;
           modify (set_db (Some (MkDb (db_path h) true (db_map h))))
  end.

(** [time()]: the next reading of the wall clock. *)
Definition time : M Timestamp :=
  w <- gets id ;;
  let t := clock w (clock_reads w) in
  modify tick_clock ;;;
  emit (EvTime t) ;;;
  ret t.

(** ** DbmTimeMachineStorage: records *)

(** [_request_key] (lines 99-100). *)
Definition _request_key (request : Request) : string :=
  request_fingerprint request.

(** The dictionary built and pickled by [store_response] (lines 80-86). *)
Definition encode_record (response : Response) : bytes :=
  let data :=
    MkPickled (r_status response) (r_url response)
      (dict_of_headers (r_headers response))
      (gzip_compress (r_body response)) in
  pickle_dumps data.

(** [pickle.loads], raising when the blob cannot be read. *)
Definition loads (blob : bytes) : M (Pickled HeaderDict) :=
  match pickle_loads blob with
  | Some data => ret data
  | None => raise UnpicklingError
  end.

(** The response rebuilt by [retrieve_response] from the unpickled
    dictionary (lines 70-75). *)
Definition build_response (data : Pickled HeaderDict) : M Response :=
  let url := p_url data in
  let status := p_status data in
  let headers := Headers_of_dict (p_headers data) in
  match gzip_decompress (p_body data) with
  | None => raise BadGzipFile
  | Some body =>
      let respcls := responsetypes_from_args headers url in
      ret (MkResponse respcls url headers status body)
  end.

(** The decoder as one function on blobs: unpickle, then rebuild. *)
Definition decode_record (blob : bytes) : M Response :=
  data <- loads blob ;;
  build_response data.

(** [_read_data] (lines 90-97). *)
Definition _read_data (request : Request) : M (option (Pickled HeaderDict)) :=
  let key := _request_key request in
  let tkey := key +:+ "_time" in
  present <- db_contains tkey ;;
  if negb present then ret None
  else
    blob <- db_getitem (key +:+ "_data") ;;
    data <- loads blob ;;
    ret (Some data).

(** [retrieve_response] (lines 66-76). *)
Definition retrieve_response (request : Request) : M (option Response) :=
  data <- _read_data request ;;
  match data with
  | None => ret None
  | Some data =>
      response <- build_response data ;;
      ret (Some response)
  end.

(** [store_response] (lines 78-88).  The right-hand side [str(time())] is
    evaluated after the payload entry has been written. *)
Definition store_response (request : Request) (response : Response) : M unit :=
  let key := _request_key request in
  let data := encode_record response in
  db_setitem (key +:+ "_data") data ;;;
  now <- time ;;
  db_setitem (key +:+ "_time") (str_of_time now).

(** ** DbmTimeMachineStorage: session *)

(** [DbmTimeMachineStorage.set_uri] (lines 28-33).  [data_path] is called
    with [createdir=True]. *)
Definition Dbm_set_uri (uri : string) (uri_params : UriParams) : M unit :=
  let p := file_uri_to_path (percent_format uri uri_params) in
  modify (set_snapshot_uri (Some p)) ;;;
  let path := dirname p in
  emit (EvMakeDirs (data_path path)) ;;;
  let path := data_path path in
  let db_name := basename p in
  modify (set_snapshot_uri (Some (join path db_name))).

(** [DbmTimeMachineStorage._prepare_time_machine] and
    [_finish_time_machine] (lines 54-55 and 63-64): [pass]. *)
Definition Dbm_prepare_time_machine : M unit := ret tt.

Definition Dbm_finish_time_machine : M unit := ret tt.

(** ** S3TimeMachineStorage *)

(** [s3_path.lstrip('/')]. *)
Fixpoint lstrip_slash (s : string) : string :=
  match s with
  | String "/"%char rest => lstrip_slash rest
  | _ => s
  end.

(** [get_netloc_and_path] (lines 116-124), applied to [self.snapshot_uri];
    it reads nothing of the storage object.  [urlparse(None)] yields empty
    components, so an unset uri fails the scheme test. *)
Definition get_netloc_and_path (s3_uri : option string) : result (string * string) :=
  match s3_uri with
  | None => Raise (ValueError "Provided uri scheme is not s3: b''")
  | Some u =>
      let '(scheme, netloc, path) := urlparse u in
      if negb (String.eqb scheme "s3") then
        Raise (ValueError ("Provided uri scheme is not s3: " +:+ scheme))
      else if String.eqb netloc "" || String.eqb path "" then
        Raise (ValueError "bucket and path must not be empty")
      else Ok (netloc, path)
  end.

(** [S3TimeMachineStorage.set_uri] (lines 129-131). *)
Definition S3_set_uri (uri : string) (uri_params : UriParams) : M (option string) :=
  t <- gets s3_uri ;;
  match t with
  | None => raise (TypeError "unsupported operand type(s) for %")
  | Some template =>
      modify (set_snapshot_uri (Some (percent_format template uri_params))) ;;;
      gets snapshot_uri
  end.

(** [S3TimeMachineStorage.is_uri_valid] (lines 126-127): the truth value
    of the pair returned by [get_netloc_and_path]; a tuple of two components
    is true. *)
Definition S3_is_uri_valid : M bool :=
  uri <- gets snapshot_uri ;;
  loc <- lift (get_netloc_and_path uri) ;;
  let '(_, _) := loc in
  ret true.

(** [NamedTemporaryFile(mode="wb", suffix=".db", delete=False)]: a new,
    empty file under a name chosen by the system. *)
Definition NamedTemporaryFile : M TempFile :=
  w <- gets id ;;
  let name := tmp_name w (tmp_made w) in
  modify tick_tmp ;;;
  emit (EvTempCreate name) ;;;
  modify (set_disk (<[name := ∅]> (disk w))) ;;;
  ret (MkTempFile name false).

(** [self.s3_client.download_fileobj(bucket, key, fileobj)]. *)
Definition download_fileobj (bucket key : string) (f : TempFile) : M unit :=
  emit (EvDownload bucket key (tf_name f)) ;;;
  w <- gets id ;;
  modify tick_s3 ;;;
  if s3_ok w (s3_calls w) then
    match bucket_store w !! (bucket, key) with
    | Some content => modify (set_disk (<[tf_name f := content]> (disk w)))
    | None => raise (ClientError "download_fileobj")
    end
  else raise (ClientError "download_fileobj").

(** [self.s3_client.upload_file(filename, bucket, key)]. *)
Definition upload_file (filename bucket key : string) : M unit :=
  emit (EvUpload filename bucket key) ;;;
  w <- gets id ;;
  modify tick_s3 ;;;
  if s3_ok w (s3_calls w) then
    match disk w !! filename with
    | Some content =>
        modify (set_bucket_store (<[(bucket, key) := content]> (bucket_store w)))
    | None => raise (ClientError "upload_file")
    end
  else raise (ClientError "upload_file").

(** [self.path_to_local_file], an attribute assigned only at the end of
    [_prepare_time_machine]. *)
Definition get_path_to_local_file : M TempFile :=
  f <- gets path_to_local_file ;;
  match f with
  | None => raise (AttributeError "path_to_local_file")
  | Some f => ret f
  end.

(** [self.path_to_local_file.flush()]. *)
Definition tempfile_flush : M unit :=
  f <- get_path_to_local_file ;;
  if tf_closed f then raise (ValueError "flush of closed file")
  else emit (EvTempFlush (tf_name f)).

(** [self.path_to_local_file.close()]; closing twice is allowed. *)
Definition tempfile_close : M unit :=
  f <- get_path_to_local_file ;;
  if tf_closed f then ret tt
  else
    emit (EvTempClose (tf_name f)) ;;;
    modify (set_path_to_local_file (Some (MkTempFile (tf_name f) true))).

(** [S3TimeMachineStorage._prepare_time_machine] (lines 140-152). *)
Definition S3_prepare_time_machine : M unit :=
  tempfile <- NamedTemporaryFile ;;
  retrieve <- gets retrieve_mode ;;
  (if retrieve then
     uri <- gets snapshot_uri ;;
     loc <- lift (get_netloc_and_path uri) ;;
     let '(s3_bucket, s3_path) := loc in
     download_fileobj s3_bucket (lstrip_slash s3_path) tempfile ;;;
     h <- dbm_open (tf_name tempfile) "c" ;;
     modify (set_db (Some h))
   else
     h <- dbm_open (tf_name tempfile) "n" ;;
     modify (set_db (Some h))) ;;;
  modify (set_path_to_local_file (Some tempfile)).

(** [S3TimeMachineStorage._finish_time_machine] (lines 154-165). *)
Definition S3_finish_time_machine : M unit :=
  snapshot <- gets snapshot_mode ;;
  if snapshot then
    tempfile_flush ;;;
    uri <- gets snapshot_uri ;;
    loc <- lift (get_netloc_and_path uri) ;;
    let '(s3_bucket, s3_path) := loc in
    f <- get_path_to_local_file ;;
    upload_file (tf_name f) s3_bucket (lstrip_slash s3_path) ;;;
    tempfile_close
  else ret tt.

(** ** Method resolution and the lifecycle hooks *)

Definition _prepare_time_machine : M unit :=
  c <- gets cls ;;
  match c with
  | DbmTimeMachineStorage => Dbm_prepare_time_machine
  | S3TimeMachineStorage => S3_prepare_time_machine
  end.

Definition _finish_time_machine : M unit :=
  c <- gets cls ;;
  match c with
  | DbmTimeMachineStorage => Dbm_finish_time_machine
  | S3TimeMachineStorage => S3_finish_time_machine
  end.

(** The truth value of [self.snapshot_uri]: [None] and the empty string
    are false. *)
Definition uri_truth (u : option string) : bool :=
  match u with
  | None => false
  | Some s => negb (String.eqb s "")
  end.

(** [DbmTimeMachineStorage.open_spider] (lines 38-52). *)
Definition Dbm_open_spider : M unit :=
  _prepare_time_machine ;;;
  uri <- gets snapshot_uri ;;
  if negb (uri_truth uri) then raise (CloseSpider "Snapshot uri not configured.")
  else
    h <- dbm_open (default "" uri) "c" ;;
    modify (set_db (Some h)).

(** [S3TimeMachineStorage.open_spider] (lines 133-138). *)
Definition S3_open_spider : M unit :=
  _prepare_time_machine.

Definition open_spider : M unit :=
  c <- gets cls ;;
  match c with
  | DbmTimeMachineStorage => Dbm_open_spider
  | S3TimeMachineStorage => S3_open_spider
  end.

(** [close_spider] (lines 57-61), inherited unchanged by the S3 class. *)
Definition close_spider : M unit :=
  truthy <- db_truth ;;
  (if truthy then db_close else ret tt) ;;;
  _finish_time_machine.

(** ** Observations on worlds *)

(** The contents of the store of an open session: [self.db] is a dbm object
    on which [close] has not been called. *)
Definition open_store (w : World) : option (gmap string bytes) :=
  match db w with
  | Some h => if db_closed h then None else Some (db_map h)
  | None => None
  end.

(** The staging file is released once [close] has been called on it. *)
Definition staging_released (w : World) : bool :=
  match path_to_local_file w with
  | Some f => tf_closed f
  | None => false
  end.

(** The events a run added to the trace. *)
Definition new_events (w w' : World) : list Event :=
  drop (length (trace w)) (trace w').

Definition is_upload (e : Event) : bool :=
  match e with EvUpload _ _ _ => true | _ => false end.

Definition is_download (e : Event) : bool :=
  match e with EvDownload _ _ _ => true | _ => false end.

Definition is_transfer (e : Event) : bool := is_upload e || is_download e.

(** The world after [self.db.close()] on the open store [h]. *)
Definition after_db_close (w : World) (h : Db) : World :=
  set_db (Some (MkDb (db_path h) true (db_map h)))
    (set_disk (<[db_path h := db_map h]> (disk w))
       (log (EvDbClose (db_path h)) w)).

(** Reads of the store, as opposed to writes and to any other access. *)
Definition is_store_read (e : Event) : bool :=
  match e with EvDbContains _ | EvDbGet _ => true | _ => false end.


(** A run of [n] slashes. *)
Fixpoint slashes (n : nat) : string :=
  match n with
  | O => ""
  | S n => String "/" (slashes n)
  end.

(** A run that returned normally. *)
Definition returned {A} (r : result A * World) : bool :=
  match r with (Ok _, _) => true | (Raise _, _) => false end.

End Storages.

(** ** A concrete instance of the interface

    Small stand-ins for the imported libraries, on which the model runs by
    computation: the compressor frames its input with the gzip magic number,
    the pickler writes the binary digits of an injective numbering of the
    dictionary, and [urlparse] splits [scheme://netloc/path]. *)
Module Sample.

#[local] Instance byte_eq_dec : EqDecision Byte.byte.
Proof.
  intros a b. destruct (decide (Byte.to_N a = Byte.to_N b)) as [H|H].
  - left. apply (f_equal Byte.of_N) in H. rewrite !Byte.of_to_N in H.
    congruence.
  - right. congruence.
Defined.

#[local] Instance byte_countable : Countable Byte.byte :=
  inj_countable Byte.to_N Byte.of_N Byte.of_to_N.

Fixpoint pos_to_bytes (p : positive) : bytes :=
  match p with
  | xH => []
  | xO q => Byte.x00 :: pos_to_bytes q
  | xI q => Byte.x01 :: pos_to_bytes q
  end.

Fixpoint bytes_to_pos (b : bytes) : option positive :=
  match b with
  | [] => Some xH
  | Byte.x00 :: r => xO <$> bytes_to_pos r
  | Byte.x01 :: r => xI <$> bytes_to_pos r
  | _ => None
  end.

Definition sample_headers : Type := list (string * list string).

Definition sample_gzip (b : bytes) : bytes := Byte.x1f :: Byte.x8b :: b.

Definition sample_gunzip (b : bytes) : option bytes :=
  match b with
  | Byte.x1f :: Byte.x8b :: r => Some r
  | _ => None
  end.

Definition sample_dumps (d : Pickled sample_headers) : bytes :=
  pos_to_bytes (encode (p_status d, p_url d, p_headers d, p_body d)).

Definition sample_loads (b : bytes) : option (Pickled sample_headers) :=
  p ← bytes_to_pos b;
  t ← decode p;
  let '(status, url, hs, body) := t : Z * string * sample_headers * bytes in
  Some (MkPickled status url hs body).

(** The prefix of [s] before the first [c], and the rest from [c] on. *)
Fixpoint take_until (c : ascii) (s : string) : string * string :=
  match s with
  | EmptyString => (EmptyString, EmptyString)
  | String a r =>
      if Ascii.eqb a c then (EmptyString, s)
      else let '(pre, post) := take_until c r in (String a pre, post)
  end.

Definition parse_url (s : string) : string * string * string :=
  let '(scheme, r) := take_until ":" s in
  match r with
  | String ":" (String "/" (String "/" r')) =>
      let '(netloc, path) := take_until "/" r' in (scheme, netloc, path)
  | String ":" r' => (scheme, "", r')
  | _ => ("", "", s)
  end.

#[export] Instance externals : Externals := {|
  Request := string;
  request_fingerprint := id;
  Headers := sample_headers;
  HeaderDict := sample_headers;
  dict_of_headers := id;
  Headers_of_dict := id;
  ResponseClass := unit;
  responsetypes_from_args := λ _ _, tt;
  gzip_compress := sample_gzip;
  gzip_decompress := sample_gunzip;
  pickle_dumps := sample_dumps;
  pickle_loads := sample_loads;
  Timestamp := Z;
  str_of_time := λ t, pos_to_bytes (encode t);
  urlparse := parse_url;
  UriParams := unit;
  percent_format := λ s _, s;
  file_uri_to_path := id;
  dirname := λ p, fst (take_until "/" p);
  basename := λ p, snd (take_until "/" p);
  data_path := λ p, ".scrapy/" +:+ p;
  join := λ a b, a +:+ b
|}.

(** A storage object before [open_spider], its location already resolved
    to [uri] (or left unset), in an empty environment where the clock reads
    1000, 1001, ..., transfers succeed as [net] says and temporary files are
    called "/tmp/t.db". *)
Definition fresh (c : StorageClass) (uri : option string)
    (retrieve snapshot : bool) (net : nat → bool) : World :=
  MkWorld c None uri uri retrieve snapshot None ∅ ∅
    (λ n, (1000 + Z.of_nat n)%Z) 0 net 0 (λ _, "/tmp/t.db") 0 [].

(** The world a method leaves behind. *)
Definition after {A} (m : M A) (w : World) : World := snd (m w).

Definition page : Response :=
  MkResponse tt "http://example.com/" [("Content-Type", ["text/html"])] 200
    [Byte.x68; Byte.x69].

Definition page' : Response :=
  MkResponse tt "http://example.com/" [("Content-Type", ["text/plain"])] 404
    [Byte.x6e; Byte.x6f].

(** A local session opened on "snap.db". *)
Definition local_session : World :=
  after open_spider
    (fresh DbmTimeMachineStorage (Some "snap.db") false false (λ _, true)).

(** A remote session, opened. *)
Definition remote_session (uri : string) (retrieve snapshot : bool)
    (net : nat → bool) : World :=
  after open_spider (fresh S3TimeMachineStorage (Some uri) retrieve snapshot net).

(** A store that holds a timestamp entry without its payload entry. *)
Definition orphan_stamp : World :=
  set_db (Some (MkDb "snap.db" false {["abc_time" := [Byte.x31]]})) local_session.

(** A remote session with a valid location, record-enabled, on a network
    where every transfer succeeds. *)
Definition recording : World :=
  remote_session "s3://bucket1/path/snap.db" false true (λ _, true).

(** A remote session whose location has no bucket. *)
Definition no_bucket (retrieve : bool) : World :=
  fresh S3TimeMachineStorage (Some "s3:///onlypath") retrieve true (λ _, true).

(** A local session that stored one page, and the same once closed. *)
Definition stored : World :=
  after (store_response "abc" page) local_session.

Definition stored_and_closed : World := after close_spider stored.



(** A remote storage with the given flags whose location has a scheme
    other than s3. *)
Definition wrong_scheme (retrieve snapshot : bool) : World :=
  fresh S3TimeMachineStorage (Some "gs://bucket1/snap.db") retrieve snapshot
    (λ _, true).

(** A local storage with its location set, not yet opened, and one whose
    location was never set. *)
Definition configured : World :=
  fresh DbmTimeMachineStorage (Some "snap.db") false false (λ _, true).

Definition unset_local : World :=
  fresh DbmTimeMachineStorage None false false (λ _, true).

(** A remote record-only storage with a valid location, not yet opened. *)
Definition record_only : World :=
  fresh S3TimeMachineStorage (Some "s3://bucket1/path/snap.db") false true
    (λ _, true).

(** A remote storage whose [open_spider] failed at the location check. *)
Definition failed_open : World := after open_spider (no_bucket true).

End Sample.

(** * Properties *)

Section Properties.
Context `{Ext : Externals}.

(** ** Running methods: basic facts *)

(** Unfold the monad and compute. *)
Ltac run :=
  unfold bind, lift, gets, modify, emit, ret, raise in *; cbn in *.

Lemma bind_ok {A B} (m : M A) (k : A → M B) w a w' :
  m w = (Ok a, w') → bind m k w = k a w'.
Proof. intros H. unfold bind. by rewrite H. Qed.

Lemma bind_raise {A B} (m : M A) (k : A → M B) w e w' :
  m w = (Raise e, w') → bind m k w = (Raise e, w').
Proof. intros H. unfold bind. by rewrite H. Qed.

Lemma open_store_db w m :
  open_store w = Some m → ∃ p, db w = Some (MkDb p false m).
Proof.
  unfold open_store. destruct (db w) as [[p c m']|]; [|done].
  simpl. destruct c; [done|]. intros [= <-]. by exists p.
Qed.

Lemma db_setitem_open w p m k v :
  db w = Some (MkDb p false m) →
  db_setitem k v w =
    (Ok tt, set_db (Some (MkDb p false (<[k := v]> m))) (log (EvDbPut k v) w)).
Proof. intros H. unfold db_setitem, bind, gets. by rewrite H. Qed.

Lemma db_contains_open w p m k :
  db w = Some (MkDb p false m) →
  db_contains k w =
    (Ok (bool_decide (is_Some (m !! k))), log (EvDbContains k) w).
Proof. intros H. unfold db_contains, bind, gets. by rewrite H. Qed.

Lemma db_getitem_open w p m k :
  db w = Some (MkDb p false m) →
  db_getitem k w =
    match m !! k with
    | Some v => (Ok v, log (EvDbGet k) w)
    | None => (Raise (KeyError k), log (EvDbGet k) w)
    end.
Proof.
  intros H. unfold db_getitem, bind, gets. rewrite H. simpl.
  by destruct (m !! k).
Qed.

(** The payload key and the timestamp key of a fingerprint differ. *)
Lemma data_key_ne_time_key (f : string) : f +:+ "_data" ≠ f +:+ "_time".
Proof. intros H. by apply (inj (String.append f)) in H. Qed.

(** [store_response] on an open session, step by step. *)
Lemma store_response_open w p m request response :
  db w = Some (MkDb p false m) →
  let f := request_fingerprint request in
  let now := clock w (clock_reads w) in
  let blob := encode_record response in
  let stamp := str_of_time now in
  store_response request response w =
    (Ok tt,
     set_db (Some (MkDb p false (<[f +:+ "_time" := stamp]> (<[f +:+ "_data" := blob]> m))))
       (log (EvDbPut (f +:+ "_time") stamp)
          (log (EvTime now)
             (tick_clock
                (set_db (Some (MkDb p false (<[f +:+ "_data" := blob]> m)))
                   (log (EvDbPut (f +:+ "_data") blob) w)))))).
Proof.
  intros H f now blob stamp. unfold store_response, _request_key.
  erewrite bind_ok by (by apply db_setitem_open).
  unfold time. unfold bind at 1. unfold bind at 1. simpl.
  by erewrite db_setitem_open by reflexivity.
Qed.

(** [_read_data] on an open session: the three ways it can end. *)
Lemma _read_data_open w p m request :
  db w = Some (MkDb p false m) →
  let f := request_fingerprint request in
  let w1 := log (EvDbContains (f +:+ "_time")) w in
  let w2 := log (EvDbGet (f +:+ "_data")) w1 in
  _read_data request w =
    match m !! (f +:+ "_time") with
    | None => (Ok None, w1)
    | Some _ =>
        match m !! (f +:+ "_data") with
        | None => (Raise (KeyError (f +:+ "_data")), w2)
        | Some blob =>
            match pickle_loads blob with
            | Some data => (Ok (Some data), w2)
            | None => (Raise UnpicklingError, w2)
            end
        end
    end.
Proof.
  intros H f w1 w2. unfold _read_data, _request_key. fold f.
  erewrite bind_ok by (by eapply db_contains_open).
  destruct (m !! (f +:+ "_time")) as [t|]; simpl; [|done].
  fold w1. unfold bind at 1.
  rewrite (db_getitem_open w1 p m) by exact H.
  destruct (m !! (f +:+ "_data")) as [blob|]; [|done].
  fold w2. unfold loads, bind. by destruct (pickle_loads blob).
Qed.

(** ** Retrieval on an open session *)

(** C4: [retrieve_response] on an open session first asks the store whether
    the timestamp key of the fingerprint is present; when that key is absent
    it returns [None] (absent) and the membership test is the only access it
    made: the payload key is never read, whatever the store holds under it. *)
Theorem retrieve_checks_timestamp_first
    (w : World) (m : gmap string bytes) (request : Request) :
  open_store w = Some m →
  let f := request_fingerprint request in
  (∃ rest, new_events w (snd (retrieve_response request w)) =
             EvDbContains (f +:+ "_time") :: rest) ∧
  (m !! (f +:+ "_time") = None →
     fst (retrieve_response request w) = Ok None ∧
     new_events w (snd (retrieve_response request w)) =
       [EvDbContains (f +:+ "_time")] ∧
     open_store (snd (retrieve_response request w)) = Some m).
Proof.
  intros Hopen f. destruct (open_store_db _ _ Hopen) as [p Hdb].
  assert (Hdrop : ∀ l : list Event, drop (length (trace w)) (trace w ++ l) = l).
  { intros l. by rewrite drop_app_length. }
  unfold retrieve_response, new_events, bind.
  rewrite (_read_data_open w p m request Hdb). fold f.
  destruct (m !! (f +:+ "_time")) as [t|]; simpl.
  - split; [|done].
    destruct (m !! (f +:+ "_data")) as [blob|]; simpl.
    + destruct (pickle_loads blob) as [data|]; simpl.
      * unfold build_response.
        destruct (gzip_decompress (p_body data)); simpl;
          rewrite <- app_assoc, Hdrop; eauto.
      * rewrite <- app_assoc, Hdrop; eauto.
    + rewrite <- app_assoc, Hdrop; eauto.
  - rewrite Hdrop. split; [eauto|]. intros _. repeat split. exact Hopen.
Qed.

(** C10: when the store of an open session holds the timestamp key of a
    fingerprint but not its payload key, [retrieve_response] raises
    [KeyError] on the payload key: once the timestamp key is found the
    payload key is read unconditionally. *)
Theorem retrieve_raises_without_payload
    (w : World) (m : gmap string bytes) (request : Request) (stamp : bytes) :
  open_store w = Some m →
  let f := request_fingerprint request in
  m !! (f +:+ "_time") = Some stamp →
  m !! (f +:+ "_data") = None →
  fst (retrieve_response request w) = Raise (KeyError (f +:+ "_data")) ∧
  new_events w (snd (retrieve_response request w)) =
    [EvDbContains (f +:+ "_time"); EvDbGet (f +:+ "_data")].
Proof.
  intros Hopen f Ht Hd. destruct (open_store_db _ _ Hopen) as [p Hdb].
  unfold retrieve_response, new_events, bind.
  rewrite (_read_data_open w p m request Hdb). fold f. rewrite Ht, Hd. simpl.
  split; [done|]. by rewrite <- app_assoc, drop_app_length.
Qed.

(** ** Storing on an open session *)

(** C5: [store_response] on an open session makes exactly two writes, the
    encoded record under "{fingerprint}_data" first and then, under
    "{fingerprint}_time", the string of the clock reading taken between the
    two writes; the store afterwards is the old one with these two entries
    set. *)
Theorem store_writes_payload_then_timestamp
    (w : World) (m : gmap string bytes) (request : Request) (response : Response) :
  open_store w = Some m →
  let f := request_fingerprint request in
  let now := clock w (clock_reads w) in
  fst (store_response request response w) = Ok tt ∧
  new_events w (snd (store_response request response w)) =
    [EvDbPut (f +:+ "_data") (encode_record response);
     EvTime now;
     EvDbPut (f +:+ "_time") (str_of_time now)] ∧
  open_store (snd (store_response request response w)) =
    Some (<[f +:+ "_time" := str_of_time now]>
            (<[f +:+ "_data" := encode_record response]> m)).
Proof.
  intros Hopen f now. destruct (open_store_db _ _ Hopen) as [p Hdb].
  rewrite (store_response_open w p m request response Hdb). simpl.
  split; [done|]. split; [|done].
  unfold new_events. simpl. by rewrite <- !app_assoc, drop_app_length.
Qed.

(** ** The record codec and what a stored record reads back as *)

Section Laws.

(** What the claims assume of the imported libraries: [Headers] rebuilt from
    its own dictionary is the same headers object, [gzip] and [pickle] read
    back what they wrote. *)
Hypothesis Headers_dict :
  ∀ h : Headers, Headers_of_dict (dict_of_headers h) = h.
Hypothesis gzip_roundtrip :
  ∀ b : bytes, gzip_decompress (gzip_compress b) = Some b.
Hypothesis pickle_roundtrip :
  ∀ d : Pickled HeaderDict, pickle_loads (pickle_dumps d) = Some d.

Lemma loads_encode_record (r : Response) :
  pickle_loads (encode_record r) =
    Some (MkPickled (r_status r) (r_url r) (dict_of_headers (r_headers r))
            (gzip_compress (r_body r))).
Proof. unfold encode_record. apply pickle_roundtrip. Qed.

Lemma build_response_encoded (r : Response) (w : World) :
  build_response
    (MkPickled (r_status r) (r_url r) (dict_of_headers (r_headers r))
       (gzip_compress (r_body r))) w =
  (Ok (MkResponse (responsetypes_from_args (r_headers r) (r_url r))
         (r_url r) (r_headers r) (r_status r) (r_body r)), w).
Proof.
  unfold build_response. simpl. by rewrite gzip_roundtrip, Headers_dict.
Qed.

(** C2: decoding an encoded record gives back the status, url, headers and
    body that were encoded; the blob carries the body compressed, and the
    decoder returns it decompressed. *)
Theorem decode_encode_roundtrip
    (c : ResponseClass) (status : Z) (url : string) (headers : Headers)
    (body : bytes) (w : World) :
  ∃ data got,
    pickle_loads (encode_record (MkResponse c url headers status body)) = Some data ∧
    p_body data = gzip_compress body ∧
    decode_record (encode_record (MkResponse c url headers status body)) w =
      (Ok got, w) ∧
    record_of got = (status, url, headers, body).
Proof.
  eexists _, _. split; [apply loads_encode_record|]. split; [done|].
  split.
  - unfold decode_record, loads, bind.
    rewrite loads_encode_record. apply build_response_encoded.
  - reflexivity.
Qed.

(** Retrieval from an open store that holds an encoded record and its
    timestamp entry. *)
Lemma retrieve_response_stored w p m request (r : Response) stamp :
  db w = Some (MkDb p false m) →
  let f := request_fingerprint request in
  m !! (f +:+ "_time") = Some stamp →
  m !! (f +:+ "_data") = Some (encode_record r) →
  ∃ got w',
    retrieve_response request w = (Ok (Some got), w') ∧
    record_of got = record_of r.
Proof.
  intros Hdb f Ht Hd. eexists _, _.
  unfold retrieve_response, bind.
  rewrite (_read_data_open w p m request Hdb). fold f.
  rewrite Ht, Hd, loads_encode_record, build_response_encoded.
  split; reflexivity.
Qed.

(** C1: on an open session, [store_response] for a request followed by
    [retrieve_response] for a request of the same fingerprint returns a
    response with the stored status, url, headers and body. *)
Theorem store_then_retrieve
    (w : World) (m : gmap string bytes) (request request' : Request)
    (response : Response) :
  open_store w = Some m →
  request_fingerprint request' = request_fingerprint request →
  ∃ w1 got w2,
    store_response request response w = (Ok tt, w1) ∧
    retrieve_response request' w1 = (Ok (Some got), w2) ∧
    record_of got = record_of response.
Proof.
  intros Hopen Hf. destruct (open_store_db _ _ Hopen) as [p Hdb].
  pose proof (store_response_open w p m request response Hdb) as Hs.
  simpl in Hs. eexists.
  edestruct (retrieve_response_stored) as (got & w2 & Hr & Hrec);
    [| | | exists got, w2; split; [exact Hs|split; [exact Hr|exact Hrec]]].
  - reflexivity.
  - rewrite Hf. apply lookup_insert_eq.
  - rewrite Hf. rewrite lookup_insert_ne by (apply not_eq_sym, data_key_ne_time_key).
    apply lookup_insert_eq.
Qed.

(** C3: on an open session, two [store_response] calls under one
    fingerprint followed by [retrieve_response] return the record of the
    second call in all four fields; when the two records differ the result
    is not the first one. *)
Theorem store_overwrites
    (w : World) (m : gmap string bytes) (request : Request) (a b : Response) :
  open_store w = Some m →
  ∃ w1 w2 got w3,
    store_response request a w = (Ok tt, w1) ∧
    store_response request b w1 = (Ok tt, w2) ∧
    retrieve_response request w2 = (Ok (Some got), w3) ∧
    record_of got = record_of b ∧
    (record_of a ≠ record_of b → record_of got ≠ record_of a).
Proof.
  intros Hopen. destruct (open_store_db _ _ Hopen) as [p Hdb].
  pose proof (store_response_open w p m request a Hdb) as Ha. simpl in Ha.
  match type of Ha with
  | _ = (_, ?w1) =>
      exists w1;
      pose proof (store_response_open w1 p _ request b eq_refl) as Hb
  end.
  simpl in Hb. eexists.
  edestruct (retrieve_response_stored) as (got & w3 & Hr & Hrec);
    [| | | exists got, w3; split; [exact Ha|split; [exact Hb|split; [exact Hr|]]]].
  - reflexivity.
  - apply lookup_insert_eq.
  - rewrite lookup_insert_ne by (apply not_eq_sym, data_key_ne_time_key).
    apply lookup_insert_eq.
  - split; [exact Hrec|]. intros Hne. by rewrite Hrec.
Qed.

End Laws.

(** ** Opening a session *)

(** C9: when the snapshot location of a local session is unset or empty,
    [open_spider] raises [CloseSpider("Snapshot uri not configured.")] and
    leaves the world as it found it: [dbm.open] is not reached, so no store
    file is created and [self.db] stays as it was. *)
Theorem open_local_unconfigured (w : World) :
  cls w = DbmTimeMachineStorage →
  snapshot_uri w = None ∨ snapshot_uri w = Some "" →
  open_spider w = (Raise (CloseSpider "Snapshot uri not configured."), w).
Proof.
  intros Hcls Huri.
  unfold open_spider, Dbm_open_spider, _prepare_time_machine,
    Dbm_prepare_time_machine, bind, gets, ret, raise.
  rewrite Hcls. cbn beta iota. rewrite Hcls.
  by destruct Huri as [-> | ->].
Qed.

(** [get_netloc_and_path] on a location whose bucket or path is empty. *)
Lemma get_netloc_and_path_partial (u scheme netloc path : string) :
  urlparse u = (scheme, netloc, path) →
  netloc = "" ∨ path = "" →
  ∃ msg, get_netloc_and_path (Some u) = Raise (ValueError msg).
Proof.
  intros Hparse Hempty. unfold get_netloc_and_path. rewrite Hparse.
  destruct (negb (String.eqb scheme "s3")); [by eexists|].
  destruct Hempty as [-> | ->]; simpl; [by eexists|].
  rewrite orb_true_r. by eexists.
Qed.

(** C8, as the code has it: for a remote session whose location has an
    empty bucket or an empty path, [open_spider] first creates the staging
    file; a retrieve-enabled session then fails with [ValueError] before any
    download and before a store is opened, with [self.db] and
    [self.path_to_local_file] left unassigned; a session that is not
    retrieve-enabled does not look at the location and opens a new store
    over the staging file. *)
Theorem open_remote_partial_location
    (w : World) (u scheme netloc path : string) :
  cls w = S3TimeMachineStorage →
  snapshot_uri w = Some u →
  urlparse u = (scheme, netloc, path) →
  netloc = "" ∨ path = "" →
  let name := tmp_name w (tmp_made w) in
  (retrieve_mode w = true →
     (∃ msg, fst (open_spider w) = Raise (ValueError msg)) ∧
     new_events w (snd (open_spider w)) = [EvTempCreate name] ∧
     db (snd (open_spider w)) = db w ∧
     path_to_local_file (snd (open_spider w)) = path_to_local_file w) ∧
  (retrieve_mode w = false →
     fst (open_spider w) = Ok tt ∧
     new_events w (snd (open_spider w)) =
       [EvTempCreate name; EvDbmOpen name "n"] ∧
     open_store (snd (open_spider w)) = Some ∅ ∧
     path_to_local_file (snd (open_spider w)) = Some (MkTempFile name false)).
Proof.
  intros Hcls Huri Hparse Hempty name.
  destruct (get_netloc_and_path_partial u _ _ _ Hparse Hempty) as [msg Hmsg].
  destruct w; simpl in *; subst.
  unfold open_spider, S3_open_spider, _prepare_time_machine,
    S3_prepare_time_machine, NamedTemporaryFile, new_events.
  split; intros ->; run.
  - rewrite Hmsg. cbn. split; [by eexists|]. by rewrite drop_app_length.
  - split; [done|]. by rewrite <- app_assoc, drop_app_length.
Qed.

(** ** Closing a session *)

Ltac run_close :=
  repeat progress
    (unfold close_spider, db_truth, db_close, _finish_time_machine,
       S3_finish_time_machine, Dbm_finish_time_machine, tempfile_flush,
       tempfile_close, get_path_to_local_file, upload_file,
       bind, lift, gets, modify, emit, ret, raise in *;
     cbn in *).

Lemma app_drop_length {A} (l k : list A) : drop (length l) (l ++ k) = k.
Proof. by rewrite drop_app_length. Qed.

(** C7, as the code has it: [close_spider] on a remote session whose staging
    file is open and whose store is unset or open.  Not record-enabled:
    it returns without any transfer and without closing the staging file.
    Record-enabled with an invalid location: the [ValueError] propagates, no
    transfer is attempted and the staging file stays open.  Record-enabled
    with a valid location: one upload is attempted; when it fails the
    [ClientError] propagates and the staging file stays open; when it
    succeeds the staging file is flushed before and closed after it. *)
Theorem close_remote_release (w : World) (f : TempFile) :
  cls w = S3TimeMachineStorage →
  path_to_local_file w = Some f →
  tf_closed f = false →
  db w = None ∨ is_Some (open_store w) →
  let r := close_spider w in
  (snapshot_mode w = false →
     fst r = Ok tt ∧ staging_released (snd r) = false ∧
     List.filter is_transfer (new_events w (snd r)) = []) ∧
  (snapshot_mode w = true →
     ∀ e, get_netloc_and_path (snapshot_uri w) = Raise e →
     fst r = Raise e ∧ staging_released (snd r) = false ∧
     List.filter is_transfer (new_events w (snd r)) = []) ∧
  (snapshot_mode w = true →
     ∀ bucket path, get_netloc_and_path (snapshot_uri w) = Ok (bucket, path) →
     let upload := EvUpload (tf_name f) bucket (lstrip_slash path) in
     (s3_ok w (s3_calls w) = false →
        fst r = Raise (ClientError "upload_file") ∧
        staging_released (snd r) = false ∧
        List.filter is_transfer (new_events w (snd r)) = [upload]) ∧
     (s3_ok w (s3_calls w) = true →
        is_Some (disk w !! tf_name f) →
        fst r = Ok tt ∧ staging_released (snd r) = true ∧
        ∃ pre, new_events w (snd r) =
                 pre ++ [EvTempFlush (tf_name f); upload; EvTempClose (tf_name f)] ∧
               List.filter is_transfer pre = [])).
Proof.
  intros Hcls Hf Hopen Hdb r. subst r.
  destruct w as [wc d su s3u rm sm pf dk bs cl cr ok sc tn tm tr], f as [n c];
    simpl in *; subst. unfold new_events, staging_released.
  assert (Hcase : d = None ∨ ∃ p m, d = Some (MkDb p false m)).
  { destruct Hdb as [-> | [m Hm]]; [by left|right].
    unfold open_store in Hm. simpl in Hm.
    destruct d as [[p [] m']|]; simpl in Hm; try discriminate. eauto. }
  clear Hdb. destruct Hcase as [-> | (p & m & ->)].
  - split; [|split].
    + intros ->. run_close. by rewrite drop_all.
    + intros -> e He. run_close. rewrite He. cbn. rewrite <- ?app_assoc, app_drop_length. done.
    + intros -> bucket path Hloc. split.
      * intros Hnet. run_close. rewrite Hloc. cbn. rewrite Hnet. cbn.
        rewrite <- ?app_assoc, app_drop_length. done.
      * intros Hnet [content Hc]. run_close. rewrite Hloc. cbn. rewrite Hnet, Hc. cbn.
        rewrite <- ?app_assoc, app_drop_length. split; [done|]. split; [done|].
        by exists [].
  - split; [|split].
    + intros ->. run_close. destruct (bool_decide (m = ∅)); cbn.
      * by rewrite drop_all.
      * by rewrite app_drop_length.
    + intros -> e He. run_close. destruct (bool_decide (m = ∅)); cbn; rewrite He; cbn;
        rewrite <- ?app_assoc, app_drop_length; done.
    + intros -> bucket path Hloc. split.
      * intros Hnet. run_close. destruct (bool_decide (m = ∅)); cbn; rewrite Hloc; cbn;
          rewrite Hnet; cbn; rewrite <- ?app_assoc, app_drop_length; done.
      * intros Hnet [content Hc]. run_close.
        destruct (bool_decide (m = ∅)); cbn; rewrite Hloc; cbn; rewrite Hnet.
        -- rewrite Hc. cbn. rewrite <- ?app_assoc, app_drop_length.
           split; [done|]. split; [done|]. by exists [].
        -- assert (is_Some (<[p := m]> dk !! n)) as [c' Hc'].
           { rewrite lookup_insert_is_Some. destruct (decide (p = n)); eauto. }
           rewrite Hc'. cbn. rewrite <- ?app_assoc, app_drop_length.
           split; [done|]. split; [done|]. by exists [EvDbClose p].
Qed.



(** [close_spider] by the state of [self.db]: the truth test raises on a
    closed store, skips [close] on an unset or empty one, and closes a
    non-empty one before [_finish_time_machine] runs. *)
Lemma close_spider_cases (w : World) :
  close_spider w =
    match db w with
    | None => _finish_time_machine w
    | Some h =>
        if db_closed h then (Raise (DbmError closed_msg), w)
        else if bool_decide (db_map h = ∅) then _finish_time_machine w
        else _finish_time_machine (after_db_close w h)
    end.
Proof.
  unfold close_spider, db_truth, db_close, bind, gets, ret, raise.
  destruct (db w) as [[p [] m]|] eqn:Hd; cbn; try done.
  destruct (bool_decide (m = ∅)); cbn; [done|].
  rewrite Hd. reflexivity.
Qed.

(** Once the staging file of a record-enabled remote session is released,
    [_finish_time_machine] stops at the flush and changes nothing. *)
Lemma finish_when_released (w : World) :
  (cls w = S3TimeMachineStorage → snapshot_mode w = true →
   staging_released w = true) →
  _finish_time_machine w =
    (match cls w with
     | DbmTimeMachineStorage => Ok tt
     | S3TimeMachineStorage =>
         if snapshot_mode w then Raise (ValueError "flush of closed file")
         else Ok tt
     end, w).
Proof.
  intros Hrel.
  destruct w as [wc d su s3u rm sm pf dk bs cl cr ok sc tn tm tr].
  unfold staging_released in Hrel. cbn in Hrel.
  destruct wc; [done|]. destruct sm; [|done].
  destruct pf as [[n []]|]; try (by discriminate Hrel). done.
Qed.

Lemma finish_returned (w w' : World) :
  _finish_time_machine w = (Ok tt, w') →
  cls w' = cls w ∧ snapshot_mode w' = snapshot_mode w ∧ db w' = db w ∧
  (cls w = S3TimeMachineStorage → snapshot_mode w = true →
   staging_released w' = true).
Proof.
  destruct w as [wc d su s3u rm sm pf dk bs cl cr ok sc tn tm tr].
  destruct wc; [by intros [= <-]|]. destruct sm; [|by intros [= <-]].
  unfold _finish_time_machine, S3_finish_time_machine, tempfile_flush,
    tempfile_close, get_path_to_local_file, upload_file.
  run_close. destruct pf as [[n []]|]; cbn; try done.
  destruct (get_netloc_and_path su) as [[b p]|e]; cbn; [|done].
  destruct (ok sc); cbn; [|done].
  destruct (dk !! n); cbn; [|done].
  by intros [= <-].
Qed.

(** What a [close_spider] that returned has done: [_finish_time_machine] ran
    to its end, on the world itself when the store was unset, and after the
    store was closed when it held an entry. *)
Lemma close_returned (w w1 : World) :
  close_spider w = (Ok tt, w1) →
  ∃ w0, _finish_time_machine w0 = (Ok tt, w1) ∧
        cls w0 = cls w ∧ snapshot_mode w0 = snapshot_mode w ∧
        (db w = None → w0 = w) ∧
        (∀ h, db w = Some h → db_closed h = false → db_map h ≠ ∅ →
           db w0 = Some (MkDb (db_path h) true (db_map h))).
Proof.
  rewrite close_spider_cases.
  destruct (db w) as [[p c m]|] eqn:Hd; cbn [db_closed db_map].
  - destruct c; [done|]. case_bool_decide as Hm; intros Hfin.
    + exists w. repeat split; try done. by intros h [= <-].
    + eexists. split; [exact Hfin|]. repeat split; try done.
      by intros h [= <-].
  - intros Hfin. exists w. repeat split; done.
Qed.

(** C6, as the code has it: a second [close_spider] after one that returned
    attempts no upload and no download.  On a remote record-enabled session
    it raises: the staging file is already closed when it is flushed again
    (or the store, closed by the first call, fails its truth test before
    that).  When the store was never set and the session is local or not
    record-enabled, it returns and changes nothing. *)
Theorem close_twice (w : World) :
  returned (close_spider w) = true →
  let w1 := snd (close_spider w) in
  let r2 := close_spider w1 in
  List.filter is_transfer (new_events w1 (snd r2)) = [] ∧
  (cls w = S3TimeMachineStorage → snapshot_mode w = true →
     fst r2 = Raise (ValueError "flush of closed file") ∨
     fst r2 = Raise (DbmError closed_msg)) ∧
  (db w = None →
     cls w = DbmTimeMachineStorage ∨ snapshot_mode w = false →
     r2 = (Ok tt, w1)).
Proof.
  intros Hret w1 r2. subst r2 w1. unfold returned in Hret.
  destruct (close_spider w) as [[[]|e] w1] eqn:Hclose; [|discriminate Hret].
  cbn [snd]. clear Hret.
  destruct (close_returned _ _ Hclose) as (w0 & Hfin & Hcls & Hsm & Hnone & _).
  destruct (finish_returned _ _ Hfin) as (Hcls1 & Hsm1 & Hdb1 & Hrel1).
  rewrite Hcls in Hcls1, Hrel1. rewrite Hsm in Hsm1, Hrel1.
  assert (Hrel : cls w1 = S3TimeMachineStorage → snapshot_mode w1 = true →
                 staging_released w1 = true).
  { rewrite Hcls1, Hsm1. exact Hrel1. }
  assert (Hrel' : ∀ h, cls (after_db_close w1 h) = S3TimeMachineStorage →
                   snapshot_mode (after_db_close w1 h) = true →
                   staging_released (after_db_close w1 h) = true).
  { intros h. exact Hrel. }
  rewrite close_spider_cases.
  split; [|split].
  - unfold new_events.
    destruct (db w1) as [[p c m]|]; cbn [db_closed db_map].
    + destruct c; [by rewrite drop_all|]. case_bool_decide.
      * rewrite (finish_when_released _ Hrel). cbn. by rewrite drop_all.
      * rewrite (finish_when_released _ (Hrel' _)). cbn.
        by rewrite app_drop_length.
    + rewrite (finish_when_released _ Hrel). cbn. by rewrite drop_all.
  - intros Hc Hs. rewrite Hc in *. rewrite Hs in *.
    destruct (db w1) as [[p c m]|]; cbn [db_closed db_map].
    + destruct c; [by right|]. case_bool_decide.
      * rewrite (finish_when_released _ Hrel). rewrite Hcls1, Hsm1. by left.
      * rewrite (finish_when_released _ (Hrel' _)). cbn. rewrite Hcls1, Hsm1.
        by left.
    + rewrite (finish_when_released _ Hrel). rewrite Hcls1, Hsm1. by left.
  - intros Hd Hc. rewrite (Hnone Hd) in *. rewrite Hdb1, Hd.
    rewrite (finish_when_released _ Hrel). rewrite Hcls1, Hsm1.
    destruct Hc as [-> | ->]; [done|]. by destruct (cls w).
Qed.

(** The truth test in [close_spider]: when the first call closed a store
    that held an entry, the second call raises [dbm.error] at
    [if self.db:], in a local session as well. *)
Lemma second_close_nonempty_store (w w1 : World) (h : Db) :
  close_spider w = (Ok tt, w1) →
  db w = Some h → db_closed h = false → db_map h ≠ ∅ →
  close_spider w1 = (Raise (DbmError closed_msg), w1).
Proof.
  intros Hclose Hd Hc Hm.
  destruct (close_returned _ _ Hclose) as (w0 & Hfin & _ & _ & _ & Hsome).
  destruct (finish_returned _ _ Hfin) as (_ & _ & Hdb1 & _).
  rewrite close_spider_cases, Hdb1, (Hsome h Hd Hc Hm). done.
Qed.

End Properties.

(** * Further properties of the storages *)

Section MoreProperties.
Context `{Ext : Externals}.

Ltac exec :=
  unfold bind, lift, gets, modify, emit, ret, raise in *; cbn in *.

(** ** Locations *)

(** X1: [get_netloc_and_path] returns a bucket and a path exactly when the
    uri parses to the scheme "s3" with that bucket and that path, both
    non-empty; what it returns is what [urlparse] gave, unchanged. *)
Theorem get_netloc_and_path_ok (u bucket path : string) :
  get_netloc_and_path (Some u) = Ok (bucket, path) ↔
  urlparse u = ("s3", bucket, path) ∧ bucket ≠ "" ∧ path ≠ "".
Proof.
  unfold get_netloc_and_path.
  destruct (urlparse u) as [[scheme netloc] p].
  destruct (String.eqb_spec scheme "s3") as [-> | Hs]; simpl.
  - destruct (String.eqb_spec netloc "") as [-> | Hn]; simpl.
    + split; [done|]. by intros ([= <- <-] & ? & ?).
    + destruct (String.eqb_spec p "") as [-> | Hp]; simpl.
      * split; [done|]. by intros ([= <- <-] & ? & ?).
      * split; [by intros [= <- <-]|]. by intros ([= <- <-] & _ & _).
  - split; [done|]. intros ([= -> _ _] & _). done.
Qed.

(** The only exception of [get_netloc_and_path]. *)
Lemma get_netloc_and_path_raises (uri : option string) (e : exn) :
  get_netloc_and_path uri = Raise e → ∃ msg, e = ValueError msg.
Proof.
  unfold get_netloc_and_path. destruct uri as [u|].
  - destruct (urlparse u) as [[scheme netloc] p].
    destruct (negb (String.eqb scheme "s3")); [intros [= <-]; eauto|].
    destruct (String.eqb netloc "" || String.eqb p "");
      [intros [= <-]; eauto | done].
  - intros [= <-]. eauto.
Qed.

(** X2: [get_netloc_and_path] fails with [ValueError] and nothing else, and
    the scheme is tested first: a uri of another scheme is reported as such
    whether or not its bucket and path are empty. *)
Theorem get_netloc_and_path_errors (uri : option string) :
  (∀ e, get_netloc_and_path uri = Raise e → ∃ msg, e = ValueError msg) ∧
  (∀ u scheme netloc path,
     uri = Some u → urlparse u = (scheme, netloc, path) → scheme ≠ "s3" →
     get_netloc_and_path uri =
       Raise (ValueError ("Provided uri scheme is not s3: " +:+ scheme))).
Proof.
  split; [apply get_netloc_and_path_raises|].
  intros u scheme netloc path -> Hparse Hs. unfold get_netloc_and_path.
  rewrite Hparse. by destruct (String.eqb_spec scheme "s3").
Qed.

(** X3: [S3TimeMachineStorage.is_uri_valid] never answers [False]: it
    returns [True] exactly when [get_netloc_and_path] accepts the location
    and raises its [ValueError] otherwise, leaving the storage untouched. *)
Theorem S3_is_uri_valid_never_false (w : World) :
  match get_netloc_and_path (snapshot_uri w) with
  | Ok _ => S3_is_uri_valid w = (Ok true, w)
  | Raise e => S3_is_uri_valid w = (Raise e, w) ∧ ∃ msg, e = ValueError msg
  end.
Proof.
  unfold S3_is_uri_valid. exec.
  destruct (get_netloc_and_path (snapshot_uri w)) as [[b p]|e] eqn:Hloc; [done|].
  split; [done|]. by apply (get_netloc_and_path_raises (snapshot_uri w)).
Qed.

(** X4: [lstrip('/')] removes a run of leading slashes and nothing else,
    and what is left does not start with a slash. *)
Theorem lstrip_slash_spec (s : string) :
  (∃ n, s = slashes n +:+ lstrip_slash s) ∧
  (∀ rest, lstrip_slash s ≠ String "/" rest).
Proof.
  induction s as [|a s [[n IHn] IHs]].
  - split; [by exists 0|done].
  - destruct (ascii_dec a "/") as [-> | Ha].
    + split; [|exact IHs]. exists (S n).
      change (String "/" s = String "/" (slashes n +:+ lstrip_slash s)).
      by f_equal.
    + assert (lstrip_slash (String a s) = String a s) as ->.
      { simpl. destruct a as [[] [] [] [] [] [] [] []];
          first [done | by destruct Ha]. }
      split; [by exists 0|]. intros rest [= ? _]. done.
Qed.

(** X5: a path made of slashes only passes the location check, although
    the S3 key derived from it is empty. *)
Theorem slash_only_path_accepted (u bucket : string) (n : nat) :
  urlparse u = ("s3", bucket, slashes (S n)) →
  bucket ≠ "" →
  get_netloc_and_path (Some u) = Ok (bucket, slashes (S n)) ∧
  lstrip_slash (slashes (S n)) = "".
Proof.
  intros Hparse Hb. split.
  - unfold get_netloc_and_path. rewrite Hparse. simpl.
    by destruct (String.eqb_spec bucket "").
  - clear Hparse. induction n as [|n IH]; [done|]. exact IH.
Qed.

(** ** Records *)

Lemma length_append (a b : string) :
  String.length (a +:+ b) = String.length a + String.length b.
Proof. induction a as [|c a IH]; simpl; [done|]. by rewrite IH. Qed.

(** Two keys built with suffixes of one length agree only when fingerprint
    and suffix both agree. *)
Lemma sub_key_inj (f g s t : string) :
  String.length s = String.length t →
  f +:+ s = g +:+ t → f = g ∧ s = t.
Proof.
  intros Hlen. revert g. induction f as [|c f IH]; intros [|d g] Heq; simpl in Heq.
  - done.
  - apply (f_equal String.length) in Heq.
    rewrite !length_append in Heq. simpl in Heq. lia.
  - apply (f_equal String.length) in Heq.
    rewrite !length_append in Heq. simpl in Heq. lia.
  - injection Heq as -> Heq. destruct (IH g Heq) as [-> ->]. done.
Qed.

Lemma sub_key_ne (f g s t : string) :
  String.length s = String.length t → f ≠ g → f +:+ s ≠ g +:+ t.
Proof. intros Hlen Hne Heq. by destruct (sub_key_inj f g s t Hlen Heq). Qed.

(** [retrieve_response] when [self.db] is unset or closed. *)
Lemma retrieve_response_unusable w request :
  open_store w = None →
  retrieve_response request w =
    (Raise (match db w with
            | None => TypeError "argument of type 'NoneType' is not iterable"
            | Some _ => DbmError closed_msg
            end), w).
Proof.
  unfold open_store, retrieve_response, _read_data, db_contains. exec.
  destruct (db w) as [[p [] m]|]; done.
Qed.

(** X6: [retrieve_response] only reads.  Whatever it returns or raises, it
    leaves the store, the files, the bucket, the clock and the attributes of
    the storage as they were, and the accesses it makes are membership tests
    and reads of the store. *)
Theorem retrieve_reads_only (w : World) (request : Request) :
  let w' := snd (retrieve_response request w) in
  db w' = db w ∧ disk w' = disk w ∧ bucket_store w' = bucket_store w ∧
  clock_reads w' = clock_reads w ∧
  path_to_local_file w' = path_to_local_file w ∧
  snapshot_uri w' = snapshot_uri w ∧
  ∃ evs, trace w' = trace w ++ evs ∧ forallb is_store_read evs = true.
Proof.
  destruct (open_store w) as [m|] eqn:Hopen.
  - destruct (open_store_db _ _ Hopen) as [p Hdb].
    unfold retrieve_response, bind.
    rewrite (_read_data_open w p m request Hdb).
    destruct (m !! _) as [t|]; cbn.
    + destruct (m !! _) as [blob|]; cbn.
      * destruct (pickle_loads blob) as [data|]; cbn.
        -- unfold build_response.
           destruct (gzip_decompress (p_body data)); cbn;
             repeat split; rewrite <- app_assoc; by eexists.
        -- repeat split; rewrite <- app_assoc; by eexists.
      * repeat split; rewrite <- app_assoc; by eexists.
    + repeat split; by eexists.
  - rewrite (retrieve_response_unusable w request Hopen). cbn.
    repeat split. exists []. by rewrite app_nil_r.
Qed.

(** X7: on a storage whose store is unset or closed, [store_response] and
    [retrieve_response] raise ([TypeError] on [None], [dbm.error] on a closed
    store) and change nothing: no entry is written, the clock is not read,
    and retrieval does not report a miss. *)
Theorem unusable_store_raises
    (w : World) (request : Request) (response : Response) :
  open_store w = None →
  ∃ e e',
    store_response request response w = (Raise e, w) ∧
    retrieve_response request w = (Raise e', w) ∧
    (db w = None → ∃ msg msg', e = TypeError msg ∧ e' = TypeError msg') ∧
    (is_Some (db w) → e = DbmError closed_msg ∧ e' = DbmError closed_msg).
Proof.
  intros Hopen. rewrite (retrieve_response_unusable w request Hopen).
  unfold open_store in Hopen. unfold store_response, db_setitem. exec.
  destruct (db w) as [[p [] m]|]; try done.
  - eexists _, _. split; [done|]. split; [done|]. split; [by intros [=]|done].
  - eexists _, _. split; [done|]. split; [done|].
    split; [by eexists _, _ | by intros [? [=]]].
Qed.


(** X9: storing under one fingerprint does not change what is retrieved
    under any other fingerprint. *)
Theorem store_keeps_other_records
    (w : World) (m : gmap string bytes) (request other : Request)
    (response : Response) :
  open_store w = Some m →
  request_fingerprint other ≠ request_fingerprint request →
  fst (retrieve_response other (snd (store_response request response w))) =
  fst (retrieve_response other w).
Proof.
  intros Hopen Hne. destruct (open_store_db _ _ Hopen) as [p Hdb].
  rewrite (store_response_open w p m request response Hdb). cbn [snd].
  match goal with
  | |- fst (retrieve_response _ ?w1) = _ =>
      assert (Hdb1 : db w1 = Some (MkDb p false
                (<[request_fingerprint request +:+ "_time" :=
                     str_of_time (clock w (clock_reads w))]>
                   (<[request_fingerprint request +:+ "_data" :=
                        encode_record response]> m)))) by reflexivity;
      set (w' := w1) in *
  end.
  unfold retrieve_response, bind.
  rewrite (_read_data_open w' p _ other Hdb1).
  rewrite (_read_data_open w p m other Hdb).
  rewrite !lookup_insert_ne by (apply sub_key_ne; [done | by apply not_eq_sym]).
  destruct (m !! _) as [t|]; [|done].
  destruct (m !! _) as [blob|]; [|done].
  destruct (pickle_loads blob) as [data|]; [|done].
  unfold build_response. by destruct (gzip_decompress (p_body data)).
Qed.

Section MoreLaws.

Hypothesis Headers_dict :
  ∀ h : Headers, Headers_of_dict (dict_of_headers h) = h.
Hypothesis gzip_roundtrip :
  ∀ b : bytes, gzip_decompress (gzip_compress b) = Some b.
Hypothesis pickle_roundtrip :
  ∀ d : Pickled HeaderDict, pickle_loads (pickle_dumps d) = Some d.

(** X10: the class of a retrieved response is not stored with the record:
    it is the class that [responsetypes] gives to the stored headers and
    url, whatever the class of the response that was stored. *)
Theorem retrieved_class_from_headers_and_url
    (w : World) (m : gmap string bytes) (request : Request) (response : Response) :
  open_store w = Some m →
  ∃ got,
    fst (retrieve_response request (snd (store_response request response w))) =
      Ok (Some got) ∧
    r_class got =
      responsetypes_from_args (r_headers response) (r_url response).
Proof.
  intros Hopen. destruct (open_store_db _ _ Hopen) as [p Hdb].
  rewrite (store_response_open w p m request response Hdb). cbn [snd].
  eexists. unfold retrieve_response, bind.
  erewrite _read_data_open by reflexivity.
  rewrite lookup_insert_eq.
  rewrite lookup_insert_ne by (apply not_eq_sym, data_key_ne_time_key).
  rewrite lookup_insert_eq.
  rewrite (loads_encode_record pickle_roundtrip).
  rewrite (build_response_encoded Headers_dict gzip_roundtrip).
  split; reflexivity.
Qed.

(** X11: the encoding is injective on records: two responses with the same
    blob have the same status, url, headers and body. *)
Theorem encode_record_injective (a b : Response) :
  encode_record a = encode_record b → record_of a = record_of b.
Proof.
  intros Heq.
  pose proof (loads_encode_record pickle_roundtrip a) as Ha.
  rewrite Heq, (loads_encode_record pickle_roundtrip b) in Ha.
  injection Ha as Hs Hu Hh Hb.
  apply (f_equal Headers_of_dict) in Hh. rewrite !Headers_dict in Hh.
  apply (f_equal gzip_decompress) in Hb. rewrite !gzip_roundtrip in Hb.
  injection Hb as Hb. unfold record_of. congruence.
Qed.

End MoreLaws.

(** ** Sessions *)

(** [open_spider] of a local storage with a location. *)
Lemma open_local_run (w : World) (u : string) :
  cls w = DbmTimeMachineStorage → snapshot_uri w = Some u → u ≠ "" →
  let content := default ∅ (disk w !! u) in
  open_spider w =
    (Ok tt,
     set_db (Some (MkDb u false content))
       (set_disk (<[u := content]> (disk w)) (log (EvDbmOpen u "c") w))).
Proof.
  intros Hcls Huri Hu content.
  unfold open_spider, Dbm_open_spider, _prepare_time_machine,
    Dbm_prepare_time_machine, dbm_open, uri_truth.
  exec. rewrite Hcls. cbn. rewrite Hcls, Huri. cbn.
  by destruct (String.eqb_spec u "").
Qed.

(** [open_spider] of a remote storage that is not retrieve-enabled. *)
Lemma open_record_only_run (w : World) :
  cls w = S3TimeMachineStorage → retrieve_mode w = false →
  let name := tmp_name w (tmp_made w) in
  open_spider w =
    (Ok tt,
     set_path_to_local_file (Some (MkTempFile name false))
       (set_db (Some (MkDb name false ∅))
          (set_disk (<[name := ∅]> (<[name := ∅]> (disk w)))
             (log (EvDbmOpen name "n")
                (set_disk (<[name := ∅]> (disk w))
                   (log (EvTempCreate name) (tick_tmp w))))))).
Proof.
  intros Hcls Hmode name.
  unfold open_spider, S3_open_spider, _prepare_time_machine,
    S3_prepare_time_machine, NamedTemporaryFile, dbm_open.
  exec. rewrite Hcls. cbn. rewrite Hcls. cbn. by rewrite Hmode.
Qed.

(** X12: [open_spider] of a local storage with a non-empty location
    returns, opening the store at that location with flag "c" and nothing
    else: the store holds what the file held, and is empty when there was no
    file. *)
Theorem open_local_configured (w : World) (u : string) :
  cls w = DbmTimeMachineStorage → snapshot_uri w = Some u → u ≠ "" →
  fst (open_spider w) = Ok tt ∧
  new_events w (snd (open_spider w)) = [EvDbmOpen u "c"] ∧
  open_store (snd (open_spider w)) = Some (default ∅ (disk w !! u)).
Proof.
  intros Hcls Huri Hu. rewrite (open_local_run w u Hcls Huri Hu). cbn.
  repeat split. unfold new_events. cbn. by rewrite drop_app_length.
Qed.

(** X13: miss on a new store: after [open_spider] of a local storage whose
    location has no file yet, [retrieve_response] returns [None] for every
    request. *)
Theorem new_local_store_misses (w : World) (u : string) (request : Request) :
  cls w = DbmTimeMachineStorage → snapshot_uri w = Some u → u ≠ "" →
  disk w !! u = None →
  fst (retrieve_response request (snd (open_spider w))) = Ok None.
Proof.
  intros Hcls Huri Hu Hfile. rewrite (open_local_run w u Hcls Huri Hu).
  rewrite Hfile. cbn [snd default]. unfold retrieve_response, bind.
  erewrite _read_data_open by reflexivity. by rewrite lookup_empty.
Qed.

(** X14: [close_spider] of a local session closes a store that holds
    entries and writes it to its file; a store without entries is false in
    [if self.db:], so it is left open and nothing happens. *)
Theorem close_local_store (w : World) (p : string) (m : gmap string bytes) :
  cls w = DbmTimeMachineStorage →
  db w = Some (MkDb p false m) →
  (m = ∅ → close_spider w = (Ok tt, w)) ∧
  (m ≠ ∅ →
     fst (close_spider w) = Ok tt ∧
     new_events w (snd (close_spider w)) = [EvDbClose p] ∧
     db (snd (close_spider w)) = Some (MkDb p true m) ∧
     disk (snd (close_spider w)) !! p = Some m).
Proof.
  intros Hcls Hdb. rewrite close_spider_cases, Hdb. cbn [db_closed db_map].
  unfold _finish_time_machine, Dbm_finish_time_machine. exec.
  split; intros Hm.
  - rewrite bool_decide_eq_true_2 by done. by rewrite Hcls.
  - rewrite bool_decide_eq_false_2 by done. cbn. rewrite Hcls. cbn.
    repeat split.
    + unfold new_events. cbn. by rewrite drop_app_length.
    + apply lookup_insert_eq.
Qed.

(** X15: a remote session that is not retrieve-enabled opens without any
    transfer and without looking at its location, over a new empty store:
    every [retrieve_response] misses until something is stored. *)
Theorem open_record_only_starts_empty (w : World) (request : Request) :
  cls w = S3TimeMachineStorage → retrieve_mode w = false →
  fst (open_spider w) = Ok tt ∧
  open_store (snd (open_spider w)) = Some ∅ ∧
  List.filter is_transfer (new_events w (snd (open_spider w))) = [] ∧
  fst (retrieve_response request (snd (open_spider w))) = Ok None.
Proof.
  intros Hcls Hmode. rewrite (open_record_only_run w Hcls Hmode). cbn [fst snd].
  split; [done|]. split; [done|]. split.
  - unfold new_events. cbn. by rewrite <- app_assoc, drop_app_length.
  - unfold retrieve_response, bind.
    erewrite _read_data_open by reflexivity. by rewrite lookup_empty.
Qed.



(** X18: [close_spider] on a storage that has no store and no staging file
    (its [open_spider] failed or never ran) does nothing and returns, except
    on a record-enabled remote storage, where it raises [AttributeError]:
    [self.path_to_local_file] was never assigned. *)
Theorem close_without_store (w : World) :
  db w = None → path_to_local_file w = None →
  close_spider w =
    (match cls w with
     | DbmTimeMachineStorage => Ok tt
     | S3TimeMachineStorage =>
         if snapshot_mode w then Raise (AttributeError "path_to_local_file")
         else Ok tt
     end, w).
Proof.
  intros Hdb Hf. rewrite close_spider_cases, Hdb.
  unfold _finish_time_machine, S3_finish_time_machine,
    Dbm_finish_time_machine, tempfile_flush, get_path_to_local_file.
  exec. destruct (cls w); [done|]. cbn.
  destruct (snapshot_mode w); [|done]. cbn. by rewrite Hf.
Qed.

(** X19: [set_uri] then [open_spider] on a local storage.  [set_uri]
    creates the data directory and sets the location to the data path of
    the directory joined with the file name; [open_spider] then raises
    [CloseSpider] when that location is the empty string, the directory
    having been created all the same, and otherwise opens the store
    there. *)
Theorem set_uri_then_open (w : World) (uri : string) (uri_params : UriParams) :
  cls w = DbmTimeMachineStorage →
  let p := file_uri_to_path (percent_format uri uri_params) in
  let target := join (data_path (dirname p)) (basename p) in
  let w1 := snd (Dbm_set_uri uri uri_params w) in
  fst (Dbm_set_uri uri uri_params w) = Ok tt ∧
  snapshot_uri w1 = Some target ∧
  new_events w w1 = [EvMakeDirs (data_path (dirname p))] ∧
  (target = "" →
     open_spider w1 = (Raise (CloseSpider "Snapshot uri not configured."), w1)) ∧
  (target ≠ "" →
     fst (open_spider w1) = Ok tt ∧
     new_events w1 (snd (open_spider w1)) = [EvDbmOpen target "c"]).
Proof.
  intros Hcls p target w1.
  assert (Hw1 : w1 = set_snapshot_uri (Some target)
                       (log (EvMakeDirs (data_path (dirname p)))
                          (set_snapshot_uri (Some p) w))) by reflexivity.
  assert (Hcls1 : cls w1 = DbmTimeMachineStorage) by (by rewrite Hw1).
  assert (Huri1 : snapshot_uri w1 = Some target) by (by rewrite Hw1).
  split; [done|]. split; [done|]. split.
  { rewrite Hw1. unfold new_events. cbn. by rewrite drop_app_length. }
  split; intros Ht.
  - unfold open_spider, Dbm_open_spider, _prepare_time_machine,
      Dbm_prepare_time_machine, uri_truth.
    exec. rewrite Hcls1. cbn. rewrite Hcls1, Huri1, Ht. done.
  - rewrite (open_local_run w1 target Hcls1 Huri1 Ht). cbn.
    split; [done|]. unfold new_events. cbn. by rewrite drop_app_length.
Qed.

(** X20: a local session never touches S3: [open_spider] and
    [close_spider] attempt no transfer and leave the bucket as it is,
    whatever the state of the storage. *)
Theorem local_session_never_transfers (w : World) :
  cls w = DbmTimeMachineStorage →
  List.filter is_transfer (new_events w (snd (open_spider w))) = [] ∧
  bucket_store (snd (open_spider w)) = bucket_store w ∧
  List.filter is_transfer (new_events w (snd (close_spider w))) = [] ∧
  bucket_store (snd (close_spider w)) = bucket_store w.
Proof.
  intros Hcls. split; [|split].
  - unfold open_spider, Dbm_open_spider, _prepare_time_machine,
      Dbm_prepare_time_machine, dbm_open, new_events.
    exec. rewrite Hcls. cbn. rewrite Hcls.
    destruct (negb (uri_truth (snapshot_uri w))); cbn.
    + by rewrite drop_all.
    + by rewrite drop_app_length.
  - unfold open_spider, Dbm_open_spider, _prepare_time_machine,
      Dbm_prepare_time_machine, dbm_open.
    exec. rewrite Hcls. cbn. rewrite Hcls.
    by destruct (negb (uri_truth (snapshot_uri w))).
  - rewrite close_spider_cases.
    unfold _finish_time_machine, Dbm_finish_time_machine, new_events. exec.
    destruct (db w) as [[p [] m]|]; cbn; rewrite ?Hcls; cbn;
      rewrite ?drop_all; try done.
    destruct (bool_decide (m = ∅)); cbn; rewrite ?Hcls; cbn;
      rewrite ?drop_all, ?drop_app_length; done.
Qed.

(** X22: [S3TimeMachineStorage.set_uri] does not use its [uri] argument:
    it resolves the TIME_MACHINE_URI template read at construction.  With
    no template it raises [TypeError] and changes nothing; otherwise it
    returns the resolved location, which is also what it stores, and makes
    no access to the outside world. *)
Theorem S3_set_uri_resolves_template
    (w : World) (uri uri' : string) (uri_params : UriParams) :
  S3_set_uri uri uri_params w = S3_set_uri uri' uri_params w ∧
  (s3_uri w = None →
     ∃ msg, S3_set_uri uri uri_params w = (Raise (TypeError msg), w)) ∧
  (∀ template, s3_uri w = Some template →
     let resolved := percent_format template uri_params in
     fst (S3_set_uri uri uri_params w) = Ok (Some resolved) ∧
     snapshot_uri (snd (S3_set_uri uri uri_params w)) = Some resolved ∧
     new_events w (snd (S3_set_uri uri uri_params w)) = []).
Proof.
  split; [done|]. unfold S3_set_uri, new_events. exec. split.
  - intros ->. by eexists.
  - intros template ->. cbn. by rewrite drop_all.
Qed.

(** [close_spider] of a record-enabled remote session whose store holds
    entries, with a valid location, when the upload succeeds. *)
Lemma close_recording_run
    (w : World) (name bucket path : string) (m : gmap string bytes) :
  cls w = S3TimeMachineStorage → snapshot_mode w = true →
  db w = Some (MkDb name false m) → m ≠ ∅ →
  path_to_local_file w = Some (MkTempFile name false) →
  get_netloc_and_path (snapshot_uri w) = Ok (bucket, path) →
  s3_ok w (s3_calls w) = true →
  fst (close_spider w) = Ok tt ∧
  new_events w (snd (close_spider w)) =
    [EvDbClose name; EvTempFlush name;
     EvUpload name bucket (lstrip_slash path); EvTempClose name] ∧
  staging_released (snd (close_spider w)) = true.
Proof.
  intros Hcls Hsnap Hdb Hm Hf Hloc Hnet.
  rewrite close_spider_cases, Hdb. cbn [db_closed db_map].
  rewrite bool_decide_eq_false_2 by done.
  unfold _finish_time_machine, S3_finish_time_machine, tempfile_flush,
    tempfile_close, get_path_to_local_file, upload_file, new_events,
    staging_released.
  exec. rewrite Hcls. cbn. rewrite Hsnap. cbn. rewrite Hf. cbn.
  rewrite Hloc. cbn. rewrite Hf. cbn. rewrite Hnet. cbn.
  rewrite lookup_insert_eq. cbn. rewrite Hf. cbn.
  repeat split. by rewrite <- !app_assoc, drop_app_length.
Qed.

(** X23: a record-only remote session that stored a record closes in this
    order: the store is closed, the staging file is flushed, the file the
    store was opened over is uploaded to the bucket under the path without
    its leading slashes, and the staging file is closed. *)
Theorem record_session_uploads_store_file
    (w : World) (bucket path : string) (request : Request) (response : Response) :
  cls w = S3TimeMachineStorage →
  retrieve_mode w = false → snapshot_mode w = true →
  get_netloc_and_path (snapshot_uri w) = Ok (bucket, path) →
  s3_ok w (s3_calls w) = true →
  let name := tmp_name w (tmp_made w) in
  let w2 := snd (store_response request response (snd (open_spider w))) in
  fst (close_spider w2) = Ok tt ∧
  new_events w2 (snd (close_spider w2)) =
    [EvDbClose name; EvTempFlush name;
     EvUpload name bucket (lstrip_slash path); EvTempClose name] ∧
  staging_released (snd (close_spider w2)) = true.
Proof.
  intros Hcls Hmode Hsnap Hloc Hnet name w2.
  assert (Hw2 : ∃ m, db w2 = Some (MkDb name false m) ∧ m ≠ ∅ ∧
                 cls w2 = cls w ∧ snapshot_mode w2 = snapshot_mode w ∧
                 snapshot_uri w2 = snapshot_uri w ∧
                 path_to_local_file w2 = Some (MkTempFile name false) ∧
                 s3_ok w2 = s3_ok w ∧ s3_calls w2 = s3_calls w).
  { subst w2. rewrite (open_record_only_run w Hcls Hmode). cbn [snd].
    erewrite store_response_open by reflexivity. cbn [snd].
    eexists. split; [reflexivity|]. split; [apply insert_non_empty|].
    repeat split. }
  destruct Hw2 as (m & Hdb & Hm & Hc & Hs & Hu & Hf & Hok & Hcalls).
  apply (close_recording_run w2 name bucket path m); try done.
  - by rewrite Hc.
  - by rewrite Hs.
  - by rewrite Hu.
  - by rewrite Hok, Hcalls.
Qed.

Section Persistence.

Hypothesis Headers_dict :
  ∀ h : Headers, Headers_of_dict (dict_of_headers h) = h.
Hypothesis gzip_roundtrip :
  ∀ b : bytes, gzip_decompress (gzip_compress b) = Some b.
Hypothesis pickle_roundtrip :
  ∀ d : Pickled HeaderDict, pickle_loads (pickle_dumps d) = Some d.

(** X21: a local snapshot survives the session.  After [store_response]
    and [close_spider] on an open local session, a local storage opened on
    the same location over the files that the close left retrieves the
    stored record. *)
Theorem local_snapshot_survives_reopen
    (w w2 : World) (u : string) (m : gmap string bytes)
    (request : Request) (response : Response) :
  cls w = DbmTimeMachineStorage →
  db w = Some (MkDb u false m) →
  cls w2 = DbmTimeMachineStorage → snapshot_uri w2 = Some u → u ≠ "" →
  disk w2 = disk (snd (close_spider (snd (store_response request response w)))) →
  fst (close_spider (snd (store_response request response w))) = Ok tt ∧
  ∃ got,
    fst (retrieve_response request (snd (open_spider w2))) = Ok (Some got) ∧
    record_of got = record_of response.
Proof.
  intros Hcls Hdb Hcls2 Huri2 Hu.
  rewrite (store_response_open w u m request response Hdb). cbn [snd].
  set (f := request_fingerprint request).
  set (m' := <[f +:+ "_time" := str_of_time (clock w (clock_reads w))]>
               (<[f +:+ "_data" := encode_record response]> m)).
  match goal with |- context [close_spider ?w0] => set (w1 := w0) end.
  assert (Hclose : close_spider w1 =
                     (Ok tt, after_db_close w1 (MkDb u false m'))).
  { rewrite close_spider_cases. subst w1. cbn [db set_db db_closed db_map].
    rewrite bool_decide_eq_false_2 by apply insert_non_empty.
    unfold _finish_time_machine, Dbm_finish_time_machine, bind, gets, ret.
    cbn. by rewrite Hcls. }
  rewrite Hclose. cbn [fst snd]. intros Hdisk. split; [done|].
  rewrite (open_local_run w2 u Hcls2 Huri2 Hu). cbn [snd].
  assert (Hfile : disk w2 !! u = Some m').
  { rewrite Hdisk. apply lookup_insert_eq. }
  rewrite Hfile. cbn [default].
  edestruct (retrieve_response_stored Headers_dict gzip_roundtrip
               pickle_roundtrip) as (got & w3 & Hr & Hrec);
    [| | | exists got; rewrite Hr; split; [reflexivity | exact Hrec]].
  - reflexivity.
  - apply lookup_insert_eq.
  - unfold m', id.
    rewrite lookup_insert_ne by (apply not_eq_sym, data_key_ne_time_key).
    apply lookup_insert_eq.
Qed.

End Persistence.

End MoreProperties.

(** * The properties on the sample instance *)

Import Sample.

Lemma bytes_to_pos_to_bytes (p : positive) : bytes_to_pos (pos_to_bytes p) = Some p.
Proof. induction p as [p IH|p IH|]; simpl; by rewrite ?IH. Qed.

Lemma sample_Headers_dict (h : Headers) : Headers_of_dict (dict_of_headers h) = h.
Proof. reflexivity. Qed.

Lemma sample_gzip_roundtrip (b : bytes) : gzip_decompress (gzip_compress b) = Some b.
Proof. reflexivity. Qed.

Lemma sample_pickle_roundtrip (d : Pickled HeaderDict) :
  pickle_loads (pickle_dumps d) = Some d.
Proof.
  destruct d as [status url hs body]. simpl.
  unfold sample_loads, sample_dumps. simpl.
  rewrite bytes_to_pos_to_bytes. simpl. by rewrite decode_encode.
Qed.

(** C1 on the sample instance: a page stored under "abc" in a new local
    session is read back. *)
Lemma store_then_retrieve_witness :
  open_store local_session = Some ∅ ∧
  ∃ w1 got w2,
    store_response "abc" page local_session = (Ok tt, w1) ∧
    retrieve_response "abc" w1 = (Ok (Some got), w2) ∧
    record_of got = record_of page.
Proof.
  split; [reflexivity|].
  apply (store_then_retrieve sample_Headers_dict sample_gzip_roundtrip
           sample_pickle_roundtrip local_session ∅ "abc" "abc" page);
    reflexivity.
Defined.

(** C2 on the sample instance. *)
Lemma decode_encode_roundtrip_witness :
  ∃ data got,
    pickle_loads (encode_record page) = Some data ∧
    p_body data = gzip_compress (r_body page) ∧
    decode_record (encode_record page) local_session = (Ok got, local_session) ∧
    record_of got = record_of page.
Proof.
  apply (decode_encode_roundtrip sample_Headers_dict sample_gzip_roundtrip
           sample_pickle_roundtrip tt 200%Z "http://example.com/"
           [("Content-Type", ["text/html"])] [Byte.x68; Byte.x69] local_session).
Defined.

(** C3 on the sample instance: a second page stored under "abc" replaces
    the first. *)
Lemma store_overwrites_witness :
  open_store local_session = Some ∅ ∧
  ∃ w1 w2 got w3,
    store_response "abc" page local_session = (Ok tt, w1) ∧
    store_response "abc" page' w1 = (Ok tt, w2) ∧
    retrieve_response "abc" w2 = (Ok (Some got), w3) ∧
    record_of got = record_of page' ∧
    (record_of page ≠ record_of page' → record_of got ≠ record_of page).
Proof.
  split; [reflexivity|].
  apply (store_overwrites sample_Headers_dict sample_gzip_roundtrip
           sample_pickle_roundtrip local_session ∅ "abc" page page').
  reflexivity.
Defined.

(** C4 on the sample instance: a lookup in a new, empty store. *)
Lemma retrieve_checks_timestamp_first_witness :
  open_store local_session = Some ∅ ∧
  (∃ rest, new_events local_session (snd (retrieve_response "abc" local_session)) =
             EvDbContains "abc_time" :: rest) ∧
  ((∅ : gmap string bytes) !! "abc_time" = None →
     fst (retrieve_response "abc" local_session) = Ok None ∧
     new_events local_session (snd (retrieve_response "abc" local_session)) =
       [EvDbContains "abc_time"] ∧
     open_store (snd (retrieve_response "abc" local_session)) = Some ∅).
Proof.
  split; [reflexivity|].
  apply (retrieve_checks_timestamp_first local_session ∅ "abc"). reflexivity.
Defined.

(** C5 on the sample instance: the clock reads 1000 at the first store. *)
Lemma store_writes_payload_then_timestamp_witness :
  open_store local_session = Some ∅ ∧
  fst (store_response "abc" page local_session) = Ok tt ∧
  new_events local_session (snd (store_response "abc" page local_session)) =
    [EvDbPut "abc_data" (encode_record page);
     EvTime 1000%Z;
     EvDbPut "abc_time" (str_of_time 1000%Z)] ∧
  open_store (snd (store_response "abc" page local_session)) =
    Some (<["abc_time" := str_of_time 1000%Z]>
            (<["abc_data" := encode_record page]> ∅)).
Proof.
  split; [reflexivity|].
  apply (store_writes_payload_then_timestamp local_session ∅ "abc" page).
  reflexivity.
Defined.

(** C10 on the sample instance. *)
Lemma retrieve_raises_without_payload_witness :
  open_store orphan_stamp = Some {["abc_time" := [Byte.x31]]} ∧
  fst (retrieve_response "abc" orphan_stamp) = Raise (KeyError "abc_data") ∧
  new_events orphan_stamp (snd (retrieve_response "abc" orphan_stamp)) =
    [EvDbContains "abc_time"; EvDbGet "abc_data"].
Proof.
  split; [reflexivity|].
  apply (retrieve_raises_without_payload orphan_stamp
           {["abc_time" := [Byte.x31]]} "abc" [Byte.x31]);
    reflexivity.
Defined.

(** C9 on the sample instance: a local storage whose uri was never set. *)
Lemma open_local_unconfigured_witness :
  let w := fresh DbmTimeMachineStorage None false false (λ _, true) in
  open_spider w = (Raise (CloseSpider "Snapshot uri not configured."), w).
Proof.
  apply (open_local_unconfigured
           (fresh DbmTimeMachineStorage None false false (λ _, true)));
    [reflexivity | left; reflexivity].
Defined.

(** C8 refuted on the sample instance.  With the location "s3:///onlypath",
    whose bucket is empty, a session that is not retrieve-enabled opens
    without error and has its store; a retrieve-enabled one fails only after
    the staging file has been created. *)
Lemma open_remote_partial_location_counterexample :
  urlparse "s3:///onlypath" = ("s3", "", "/onlypath") ∧
  fst (open_spider (no_bucket false)) = Ok tt ∧
  open_store (snd (open_spider (no_bucket false))) = Some ∅ ∧
  fst (open_spider (no_bucket true)) =
    Raise (ValueError "bucket and path must not be empty") ∧
  trace (snd (open_spider (no_bucket true))) = [EvTempCreate "/tmp/t.db"].
Proof. repeat apply conj; reflexivity. Qed.

(** The amended C8 on the sample instance. *)
Lemma open_remote_partial_location_witness :
  urlparse "s3:///onlypath" = ("s3", "", "/onlypath") ∧
  ((retrieve_mode (no_bucket true) = true →
      (∃ msg, fst (open_spider (no_bucket true)) = Raise (ValueError msg)) ∧
      new_events (no_bucket true) (snd (open_spider (no_bucket true))) =
        [EvTempCreate "/tmp/t.db"] ∧
      db (snd (open_spider (no_bucket true))) = db (no_bucket true) ∧
      path_to_local_file (snd (open_spider (no_bucket true))) =
        path_to_local_file (no_bucket true)) ∧
   (retrieve_mode (no_bucket true) = false →
      fst (open_spider (no_bucket true)) = Ok tt ∧
      new_events (no_bucket true) (snd (open_spider (no_bucket true))) =
        [EvTempCreate "/tmp/t.db"; EvDbmOpen "/tmp/t.db" "n"] ∧
      open_store (snd (open_spider (no_bucket true))) = Some ∅ ∧
      path_to_local_file (snd (open_spider (no_bucket true))) =
        Some (MkTempFile "/tmp/t.db" false))).
Proof.
  split; [reflexivity|].
  apply (open_remote_partial_location (no_bucket true)
           "s3:///onlypath" "s3" "" "/onlypath");
    [reflexivity | reflexivity | reflexivity | left; reflexivity].
Defined.

(** C7 refuted on the sample instance.  When the upload fails, and when the
    session is not record-enabled, [close_spider] leaves the staging file
    open. *)
Lemma close_remote_release_counterexample :
  let failing := remote_session "s3://bucket1/path/snap.db" false true (λ _, false) in
  let replay := remote_session "s3://bucket1/path/snap.db" false false (λ _, true) in
  fst (close_spider failing) = Raise (ClientError "upload_file") ∧
  staging_released (snd (close_spider failing)) = false ∧
  fst (close_spider replay) = Ok tt ∧
  staging_released (snd (close_spider replay)) = false.
Proof. repeat apply conj; reflexivity. Qed.

(** The amended C7 on the sample instance: a record-enabled session with a
    valid location. *)
Lemma close_remote_release_witness :
  let f := MkTempFile "/tmp/t.db" false in
  let r := close_spider recording in
  path_to_local_file recording = Some f ∧
  open_store recording = Some ∅ ∧
  (snapshot_mode recording = false →
     fst r = Ok tt ∧ staging_released (snd r) = false ∧
     List.filter is_transfer (new_events recording (snd r)) = []) ∧
  (snapshot_mode recording = true →
     ∀ e, get_netloc_and_path (snapshot_uri recording) = Raise e →
     fst r = Raise e ∧ staging_released (snd r) = false ∧
     List.filter is_transfer (new_events recording (snd r)) = []) ∧
  (snapshot_mode recording = true →
     ∀ bucket path,
     get_netloc_and_path (snapshot_uri recording) = Ok (bucket, path) →
     let upload := EvUpload (tf_name f) bucket (lstrip_slash path) in
     (s3_ok recording (s3_calls recording) = false →
        fst r = Raise (ClientError "upload_file") ∧
        staging_released (snd r) = false ∧
        List.filter is_transfer (new_events recording (snd r)) = [upload]) ∧
     (s3_ok recording (s3_calls recording) = true →
        is_Some (disk recording !! tf_name f) →
        fst r = Ok tt ∧ staging_released (snd r) = true ∧
        ∃ pre, new_events recording (snd r) =
                 pre ++ [EvTempFlush (tf_name f); upload; EvTempClose (tf_name f)] ∧
               List.filter is_transfer pre = [])).
Proof.
  split; [reflexivity|]. split; [reflexivity|].
  apply (close_remote_release recording (MkTempFile "/tmp/t.db" false));
    [reflexivity | reflexivity | reflexivity | right; by eexists].
Defined.

(** C6 refuted on the sample instance: on a record-enabled remote session
    the first [close_spider] returns and the second one raises, at the flush
    of the staging file that the first one closed. *)
Lemma close_twice_counterexample :
  returned (close_spider recording) = true ∧
  staging_released (snd (close_spider recording)) = true ∧
  fst (close_spider (snd (close_spider recording))) =
    Raise (ValueError "flush of closed file").
Proof. repeat apply conj; vm_compute; reflexivity. Qed.

(** The amended C6 on the sample instance. *)
Lemma close_twice_witness :
  let w1 := snd (close_spider recording) in
  let r2 := close_spider w1 in
  returned (close_spider recording) = true ∧
  List.filter is_transfer (new_events w1 (snd r2)) = [] ∧
  (cls recording = S3TimeMachineStorage → snapshot_mode recording = true →
     fst r2 = Raise (ValueError "flush of closed file") ∨
     fst r2 = Raise (DbmError closed_msg)) ∧
  (db recording = None →
     cls recording = DbmTimeMachineStorage ∨ snapshot_mode recording = false →
     r2 = (Ok tt, w1)).
Proof.
  split; [reflexivity|].
  apply (close_twice recording). reflexivity.
Defined.

(** A local session that stored a page: the second [close_spider] fails the
    truth test of the closed store. *)
Example second_close_local_store :
  close_spider stored_and_closed =
    (Raise (DbmError "DBM object has already been closed"), stored_and_closed).
Proof.
  eapply (second_close_nonempty_store stored stored_and_closed).
  - vm_compute. reflexivity.
  - reflexivity.
  - reflexivity.
  - cbn. intros H.
    apply (f_equal (λ m : gmap string bytes, m !! "abc_time")) in H.
    rewrite lookup_insert_eq, lookup_empty in H. discriminate H.
Qed.

(** ** The further properties on the sample instance *)

(** X5 on the sample instance: the location "s3://bucket1/". *)
Lemma slash_only_path_accepted_witness :
  urlparse "s3://bucket1/" = ("s3", "bucket1", slashes 1) ∧
  get_netloc_and_path (Some "s3://bucket1/") = Ok ("bucket1", slashes 1) ∧
  lstrip_slash (slashes 1) = "".
Proof.
  split; [reflexivity|].
  apply (slash_only_path_accepted (Ext := externals) "s3://bucket1/" "bucket1" 0);
    [reflexivity | discriminate].
Defined.

(** X7 on the sample instance: a local session after its close. *)
Lemma unusable_store_raises_witness :
  open_store stored_and_closed = None ∧
  ∃ e e',
    store_response "abc" page stored_and_closed = (Raise e, stored_and_closed) ∧
    retrieve_response "abc" stored_and_closed = (Raise e', stored_and_closed) ∧
    (db stored_and_closed = None →
       ∃ msg msg', e = TypeError msg ∧ e' = TypeError msg') ∧
    (is_Some (db stored_and_closed) →
       e = DbmError closed_msg ∧ e' = DbmError closed_msg).
Proof.
  split; [vm_compute; reflexivity|].
  apply (unusable_store_raises (Ext := externals) stored_and_closed "abc" page).
  vm_compute. reflexivity.
Defined.


(** X9 on the sample instance: storing under "abc" and retrieving under
    "xyz". *)
Lemma store_keeps_other_records_witness :
  open_store local_session = Some ∅ ∧
  fst (retrieve_response "xyz" (snd (store_response "abc" page local_session))) =
  fst (retrieve_response "xyz" local_session).
Proof.
  split; [reflexivity|].
  apply (store_keeps_other_records (Ext := externals) local_session ∅
           "abc" "xyz" page);
    [reflexivity | discriminate].
Defined.

(** X10 on the sample instance. *)
Lemma retrieved_class_from_headers_and_url_witness :
  open_store local_session = Some ∅ ∧
  ∃ got,
    fst (retrieve_response "abc" (snd (store_response "abc" page local_session))) =
      Ok (Some got) ∧
    r_class got = responsetypes_from_args (r_headers page) (r_url page).
Proof.
  split; [reflexivity|].
  apply (retrieved_class_from_headers_and_url sample_Headers_dict
           sample_gzip_roundtrip sample_pickle_roundtrip local_session ∅
           "abc" page).
  reflexivity.
Defined.

(** X11 on the sample instance. *)
Lemma encode_record_injective_witness :
  encode_record page = encode_record page ∧ record_of page = record_of page.
Proof.
  split; [reflexivity|].
  apply (encode_record_injective sample_Headers_dict sample_gzip_roundtrip
           sample_pickle_roundtrip page page).
  reflexivity.
Defined.

(** X12 on the sample instance: a local storage located at "snap.db". *)
Lemma open_local_configured_witness :
  fst (open_spider configured) = Ok tt ∧
  new_events configured (snd (open_spider configured)) =
    [EvDbmOpen "snap.db" "c"] ∧
  open_store (snd (open_spider configured)) =
    Some (default ∅ (disk configured !! "snap.db")).
Proof.
  apply (open_local_configured (Ext := externals) configured "snap.db");
    [reflexivity | reflexivity | discriminate].
Defined.

(** X13 on the sample instance. *)
Lemma new_local_store_misses_witness :
  disk configured !! "snap.db" = None ∧
  fst (retrieve_response "abc" (snd (open_spider configured))) = Ok None.
Proof.
  split; [reflexivity|].
  apply (new_local_store_misses (Ext := externals) configured "snap.db" "abc");
    [reflexivity | reflexivity | discriminate | reflexivity].
Defined.

(** X14 on the sample instance: a local session that stored a page. *)
Lemma close_local_store_witness :
  fst (close_spider stored) = Ok tt ∧
  new_events stored (snd (close_spider stored)) = [EvDbClose "snap.db"].
Proof.
  destruct (close_local_store (Ext := externals) stored "snap.db" _
              eq_refl eq_refl) as [_ Hfull].
  destruct (Hfull (insert_non_empty _ _ _)) as (Hret & Hev & _).
  exact (conj Hret Hev).
Defined.

(** X15 on the sample instance. *)
Lemma open_record_only_starts_empty_witness :
  fst (open_spider record_only) = Ok tt ∧
  open_store (snd (open_spider record_only)) = Some ∅ ∧
  List.filter is_transfer (new_events record_only (snd (open_spider record_only))) = [] ∧
  fst (retrieve_response "abc" (snd (open_spider record_only))) = Ok None.
Proof.
  apply (open_record_only_starts_empty (Ext := externals) record_only "abc");
    reflexivity.
Defined.



(** X18 on the sample instance: close after the failed open. *)
Lemma close_without_store_witness :
  close_spider failed_open =
    (Raise (AttributeError "path_to_local_file"), failed_open).
Proof.
  apply (close_without_store (Ext := externals) failed_open); reflexivity.
Defined.

(** X19 on the sample instance: the uri "cache/snap.db". *)
Lemma set_uri_then_open_witness :
  let w1 := snd (Dbm_set_uri "cache/snap.db" tt unset_local) in
  fst (Dbm_set_uri "cache/snap.db" tt unset_local) = Ok tt ∧
  snapshot_uri w1 = Some ".scrapy/cache/snap.db" ∧
  new_events unset_local w1 = [EvMakeDirs ".scrapy/cache"] ∧
  (".scrapy/cache/snap.db" = "" →
     open_spider w1 = (Raise (CloseSpider "Snapshot uri not configured."), w1)) ∧
  (".scrapy/cache/snap.db" ≠ "" →
     fst (open_spider w1) = Ok tt ∧
     new_events w1 (snd (open_spider w1)) =
       [EvDbmOpen ".scrapy/cache/snap.db" "c"]).
Proof.
  apply (set_uri_then_open (Ext := externals) unset_local "cache/snap.db" tt).
  reflexivity.
Defined.

(** X20 on the sample instance. *)
Lemma local_session_never_transfers_witness :
  List.filter is_transfer (new_events stored (snd (open_spider stored))) = [] ∧
  bucket_store (snd (open_spider stored)) = bucket_store stored ∧
  List.filter is_transfer (new_events stored (snd (close_spider stored))) = [] ∧
  bucket_store (snd (close_spider stored)) = bucket_store stored.
Proof.
  apply (local_session_never_transfers (Ext := externals) stored). reflexivity.
Defined.

(** X21 on the sample instance: the closed session is opened again. *)
Lemma local_snapshot_survives_reopen_witness :
  fst (close_spider (snd (store_response "abc" page local_session))) = Ok tt ∧
  ∃ got,
    fst (retrieve_response "abc" (snd (open_spider stored_and_closed))) =
      Ok (Some got) ∧
    record_of got = record_of page.
Proof.
  apply (local_snapshot_survives_reopen sample_Headers_dict
           sample_gzip_roundtrip sample_pickle_roundtrip
           local_session stored_and_closed "snap.db" ∅ "abc" page);
    first [reflexivity | discriminate].
Defined.

(** X23 on the sample instance. *)
Lemma record_session_uploads_store_file_witness :
  let w2 := snd (store_response "abc" page (snd (open_spider record_only))) in
  fst (close_spider w2) = Ok tt ∧
  new_events w2 (snd (close_spider w2)) =
    [EvDbClose "/tmp/t.db"; EvTempFlush "/tmp/t.db";
     EvUpload "/tmp/t.db" "bucket1" "path/snap.db"; EvTempClose "/tmp/t.db"] ∧
  staging_released (snd (close_spider w2)) = true.
Proof.
  apply (record_session_uploads_store_file (Ext := externals) record_only
           "bucket1" "/path/snap.db" "abc" page);
    reflexivity.
Defined.
